(** * django_hana: the cursor wrappers and the connection wrapper of
    [django_hana/base.py], embedded as state-passing programs.

    The embedding follows the Python source method by method.  Objects the
    wrapper mutates (the [DatabaseWrapper] and the driver objects it holds)
    live in one store, [World]; calls into the driver are recorded in a trace
    and their outcomes are taken from an environment [Env]. *)

From stdpp Require Import base tactics option list strings gmap pretty.
From Stdlib Require Import ZArith Lia Ascii.

Open Scope string_scope.

(** ** Python values and exceptions *)

Module Py.

(** Interpreter line: [six] is imported for both, and [e[0]] on an
    exception means different things on the two. *)
Inductive py_version := Py2 | Py3.

(** The values that flow through the wrappers: SQL parameters, rows,
    driver return values, settings. *)
#[warnings="-register-all"]
Inductive pyval :=
| PNone
| PBool (b : bool)
| PInt (z : Z)
| PStr (s : string)
| PBytes (b : string)
| PBlob (b : string)              (* Database.Blob *)
| PList (l : list pyval)
| PTuple (l : list pyval)
| PIter (l : list pyval)          (* an iterator or generator: no len() *)
| PCursor.                        (* the driver cursor object itself *)

(** Exception classes.  The DB-API family of the driver is
    [Database.Error] and its subclasses; [utils.*] are Django's. *)
Inductive driver_class :=
| Error | InterfaceError | DatabaseError | DataError | OperationalError
| IntegrityError | InternalError | ProgrammingError | NotSupportedError.

Inductive exc_class :=
| Driver (c : driver_class)
| utils_IntegrityError
| utils_DatabaseError
| ImproperlyConfigured
| TransactionManagementError
| KeyError | IndexError | TypeError | ValueError | AttributeError
| StopIteration
| OtherException (name : string).

Record exc := Exc { exc_cls : exc_class; exc_args : list pyval }.

(** [except Database.IntegrityError] *)
Definition is_driver_integrity (e : exc) : bool :=
  match exc_cls e with Driver IntegrityError => true | _ => false end.

(** [except Database.Error]: every class of the driver family. *)
Definition is_driver_error (e : exc) : bool :=
  match exc_cls e with Driver _ => true | _ => false end.

(** Truth value of a Python object, as [if x:] tests it. *)
Definition truthy (v : pyval) : bool :=
  match v with
  | PNone => false
  | PBool b => b
  | PInt z => negb (z =? 0)%Z
  | PStr s | PBytes s => negb (String.eqb s "")
  | PBlob _ => true
  | PList l | PTuple l => match l with [] => false | _ => true end
  | PIter _ => true
  | PCursor => true
  end.

(** [x in (301,)] for the one-element tuple of integers: equality with an
    [int]; a value of another type is not equal to any of them. *)
Definition in_codes (v : pyval) (codes : list Z) : bool :=
  match v with
  | PInt z => existsb (Z.eqb z) codes
  | PBool b => existsb (Z.eqb (if b then 1 else 0)%Z) codes
  | _ => false
  end.

(** *** [str.replace]

    CPython scans left to right and replaces non-overlapping occurrences.
    [skip] counts the characters of the occurrence just replaced that are
    still to be dropped.  An empty [old] puts [new] before every character
    and at the end. *)
Fixpoint is_prefix (p s : string) : bool :=
  match p, s with
  | EmptyString, _ => true
  | String a p', String b s' => if Ascii.eqb a b then is_prefix p' s' else false
  | String _ _, EmptyString => false
  end.

Fixpoint replace_from (old new : string) (skip : nat) (s : string) : string :=
  match s with
  | EmptyString => EmptyString
  | String c rest =>
      match skip with
      | S k => replace_from old new k rest
      | O => if is_prefix old s
             then new +:+ replace_from old new (String.length old - 1) rest
             else String c (replace_from old new 0 rest)
      end
  end.

Fixpoint intersperse_str (new s : string) : string :=
  match s with
  | EmptyString => new
  | String c rest => new +:+ String c (intersperse_str new rest)
  end.

Definition str_replace (s old new : string) : string :=
  match old with
  | EmptyString => intersperse_str new s
  | _ => replace_from old new 0 s
  end.

(** [str.upper] on the ASCII range. *)
Definition upper_ascii (c : Ascii.ascii) : Ascii.ascii :=
  let n := Ascii.nat_of_ascii c in
  if (97 <=? n)%nat && (n <=? 122)%nat then Ascii.ascii_of_nat (n - 32) else c.

Fixpoint str_upper (s : string) : string :=
  match s with
  | EmptyString => EmptyString
  | String c rest => String (upper_ascii c) (str_upper rest)
  end.

(** [len(x)]: defined on sized containers, [TypeError] otherwise. *)
Definition py_len (v : pyval) : exc + nat :=
  match v with
  | PList l | PTuple l => inr (length l)
  | PStr s | PBytes s => inr (String.length s)
  | _ => inl (Exc TypeError [PStr "object has no len()"])
  end.

(** ['%s' % n] for a length, ['%s' % '?'] for the fallback. *)
Definition str_of_nat (n : nat) : string := pretty n.

End Py.
Export Py.

(** ** The store and the environment *)

(** A call into the driver, as the driver sees it. *)
Inductive event :=
| EvConnect (host : pyval) (port : Z) (user password : pyval)
| EvConnCursor                                   (* connection.cursor() *)
| EvExecute (sql : string) (params : pyval)      (* cursor.execute *)
| EvExecuteMany (sql : string) (param_list : pyval)
| EvFetchall
| EvSetAutocommit (auto : bool)
| EvRollback
| EvCommit
| EvClose.

(** The driver's connection object: what [connection.closed] reads and what
    [setautocommit] writes. *)
Record DriverConn := { closed : bool; conn_autocommit : bool }.

(** The driver's cursor object: the rows it has still to hand out, and
    whether [iter(cursor)] is supported. *)
Record DriverCursor := { native_iter : bool; pending : list pyval }.

(** [settings_dict]: Django fills in every key, an unset one is falsy. *)
Record Settings := {
  NAME : pyval; USER : pyval; PASSWORD : pyval; HOST : pyval; PORT : pyval;
  AUTOCOMMIT : bool }.

(** One entry of the query log: the dict with the keys ['sql'] and ['time'];
    ['time'] holds the text ['%.3f' % duration]. *)
Record QueryLogEntry := { q_sql : string; q_time : string }.

(** The [extra] dict handed to [logger.debug]. *)
Record LogRecord := { l_duration : Z; l_sql : string; l_params : pyval }.

(** The attributes of the [DatabaseWrapper] the code reads and writes. *)
Record DB := {
  settings_dict : Settings;
  connection : option DriverConn;
  autocommit : bool;
  _dirty : bool;
  transaction_state : list bool;
  default_schema : string;
  queries : list QueryLogEntry   (* the log the connection keeps: Django's queries_log *) }.

Record World := {
  db : DB;
  cursor : DriverCursor;       (* CursorWrapper.cursor *)
  ticks : nat;                 (* number of time() readings so far *)
  trace : list event;          (* driver calls, oldest first *)
  diagnostics : list LogRecord }.

(** What lies outside the repository: the interpreter line, the outcome of
    each driver call given the calls made so far, the operations
    collaborator's rendering, the clock, [int()] on a string, and the
    floating-point formatting ['%.3f' % duration]. *)
Record Env := {
  python : py_version;
  driver : list event -> event -> exc + pyval;
  last_executed_query : DriverCursor -> string -> pyval -> string;
  clock : nat -> Z;
  int_of_str : string -> option Z;
  format_duration : Z -> string }.

Definition with_connection (c : option DriverConn) (d : DB) : DB :=
  {| settings_dict := settings_dict d; connection := c; autocommit := autocommit d;
     _dirty := _dirty d; transaction_state := transaction_state d;
     default_schema := default_schema d; queries := queries d |}.
Definition with_autocommit (a : bool) (d : DB) : DB :=
  {| settings_dict := settings_dict d; connection := connection d; autocommit := a;
     _dirty := _dirty d; transaction_state := transaction_state d;
     default_schema := default_schema d; queries := queries d |}.
Definition with_dirty (b : bool) (d : DB) : DB :=
  {| settings_dict := settings_dict d; connection := connection d; autocommit := autocommit d;
     _dirty := b; transaction_state := transaction_state d;
     default_schema := default_schema d; queries := queries d |}.
Definition with_transaction_state (ts : list bool) (d : DB) : DB :=
  {| settings_dict := settings_dict d; connection := connection d; autocommit := autocommit d;
     _dirty := _dirty d; transaction_state := ts;
     default_schema := default_schema d; queries := queries d |}.
Definition with_default_schema (s : string) (d : DB) : DB :=
  {| settings_dict := settings_dict d; connection := connection d; autocommit := autocommit d;
     _dirty := _dirty d; transaction_state := transaction_state d;
     default_schema := s; queries := queries d |}.

Definition with_db (d : DB) (w : World) : World :=
  {| db := d; cursor := cursor w; ticks := ticks w; trace := trace w;
     diagnostics := diagnostics w |}.
Definition with_cursor (c : DriverCursor) (w : World) : World :=
  {| db := db w; cursor := c; ticks := ticks w; trace := trace w;
     diagnostics := diagnostics w |}.
Definition with_ticks (n : nat) (w : World) : World :=
  {| db := db w; cursor := cursor w; ticks := n; trace := trace w;
     diagnostics := diagnostics w |}.
Definition with_trace (t : list event) (w : World) : World :=
  {| db := db w; cursor := cursor w; ticks := ticks w; trace := t;
     diagnostics := diagnostics w |}.
Definition with_diagnostics (l : list LogRecord) (w : World) : World :=
  {| db := db w; cursor := cursor w; ticks := ticks w; trace := trace w;
     diagnostics := l |}.

(** ** Statements: a state monad with exceptions *)

Inductive Result (A : Type) :=
| Ret (a : A)
| Raise (e : exc).
Arguments Ret {A} a.
Arguments Raise {A} e.

Definition M (A : Type) : Type := World -> Result A * World.

Definition ret {A} (a : A) : M A := fun w => (Ret a, w).
Definition raise {A} (e : exc) : M A := fun w => (Raise e, w).
Definition bind {A B} (m : M A) (k : A -> M B) : M B :=
  fun w => match m w with
           | (Ret a, w') => k a w'
           | (Raise e, w') => (Raise e, w')
           end.

Declare Scope py_scope.
Delimit Scope py_scope with py.
Notation "x <- m ;; k" := (bind m (fun x => k))
  (at level 100, m at next level, right associativity) : py_scope.
Notation "m ;;; k" := (bind m (fun _ => k))
  (at level 100, right associativity) : py_scope.
Open Scope py_scope.

Definition get {A} (f : World -> A) : M A := fun w => (Ret (f w), w).
Definition modify (f : World -> World) : M unit := fun w => (Ret tt, f w).
Definition modify_db (f : DB -> DB) : M unit := modify (fun w => with_db (f (db w)) w).

(** [try: body / except ...: handler]: [handler e] is [None] when no
    [except] clause matches [e]. *)
Definition try_except {A} (body : M A) (handler : exc -> option (M A)) : M A :=
  fun w => match body w with
           | (Ret a, w') => (Ret a, w')
           | (Raise e, w') =>
               match handler e with
               | Some h => h w'
               | None => (Raise e, w')
               end
           end.

(** [try: body / finally: fin]: [fin] always runs; an exception of [fin]
    replaces the outcome of [body]. *)
Definition try_finally {A} (body : M A) (fin : M unit) : M A :=
  fun w => match body w with
           | (r, w') =>
               match fin w' with
               | (Ret _, w'') => (r, w'')
               | (Raise e, w'') => (Raise e, w'')
               end
           end.

(** ** Calls that leave the repository *)

Section Calls.
Context (env : Env).

(** A driver call: recorded, and answered by the environment. *)
Definition call_driver (ev : event) : M pyval :=
  fun w => let w' := with_trace (trace w ++ [ev]) w in
           match driver env (trace w) ev with
           | inl e => (Raise e, w')
           | inr v => (Ret v, w')
           end.

(** [time()] *)
Definition time : M Z :=
  fun w => (Ret (clock env (ticks w)), with_ticks (S (ticks w)) w).

(** [e[0]] on an exception object.  Python 2 forwards indexing to [e.args];
    on Python 3 an exception is not subscriptable (the driver's classes are
    plain [Exception] subclasses). *)
Definition exc_getitem (e : exc) (i : nat) : M pyval :=
  match python env with
  | Py2 => match exc_args e !! i with
           | Some v => ret v
           | None => raise (Exc IndexError [PStr "tuple index out of range"])
           end
  | Py3 => raise (Exc TypeError [PStr "object is not subscriptable"])
  end.

(** [d[key]] on a dict *)
Definition dict_getitem (d : gmap string pyval) (key : string) : M pyval :=
  match d !! key with
  | Some v => ret v
  | None => raise (Exc KeyError [PStr key])
  end.

(** [int(x)] *)
Definition py_int (v : pyval) : M Z :=
  match v with
  | PInt z => ret z
  | PBool b => ret (if b then 1 else 0)%Z
  | PStr s => match int_of_str env s with
              | Some z => ret z
              | None => raise (Exc ValueError [PStr "invalid literal for int()"])
              end
  | _ => raise (Exc TypeError [PStr "int() argument must be a string or a number"])
  end.

(** The methods of the driver connection held in [self.connection];
    [None] has none of them. *)
Definition no_attribute {A} (attr : string) : M A :=
  raise (Exc AttributeError [PStr ("'NoneType' object has no attribute '" +:+ attr +:+ "'")]).

Definition connection_setautocommit (auto : bool) : M unit :=
  c <- get (fun w => connection (db w)) ;;
  match c with
  | None => no_attribute "setautocommit"
  | Some c =>
      call_driver (EvSetAutocommit auto) ;;;
      modify_db (with_connection (Some {| closed := closed c; conn_autocommit := auto |}))
  end.

Definition connection_close : M unit :=
  c <- get (fun w => connection (db w)) ;;
  match c with
  | None => no_attribute "close"
  | Some c =>
      call_driver EvClose ;;;
      modify_db (with_connection (Some {| closed := true; conn_autocommit := conn_autocommit c |}))
  end.

End Calls.

(** ** class DatabaseWrapper *)

Module DatabaseWrapper.
Section Methods.
Context (env : Env).

(** Django's accessor of the wrapper's autocommit attribute. *)
Definition get_autocommit : M bool := get (fun w => autocommit (db w)).

(** Django's thread-sharing check; one thread owns the connection. *)
Definition validate_thread_sharing : M unit := ret tt.

(** Django's [rollback], as far as the driver sees it: [_rollback] calls
    [connection.rollback()] when a connection is held. *)
Definition rollback : M unit :=
  c <- get (fun w => connection (db w)) ;;
  match c with
  | None => ret tt
  | Some _ => call_driver env EvRollback ;;; ret tt
  end.

Definition close : M unit :=
  validate_thread_sharing ;;;
  c <- get (fun w => connection (db w)) ;;
  match c with
  | None => ret tt
  | Some _ =>
      connection_close env ;;;
      modify_db (with_connection None)
  end.

Definition get_connection_params : M (gmap string pyval) :=
  s <- get (fun w => settings_dict (db w)) ;;
  if negb (truthy (NAME s)) then
    raise (Exc ImproperlyConfigured
             [PStr "settings.DATABASES is improperly configured. Please supply the NAME value."])
  else
    let conn_params : gmap string pyval := ∅ in
    let conn_params := if truthy (USER s) then <["user" := USER s]> conn_params else conn_params in
    let conn_params := if truthy (PASSWORD s) then <["password" := PASSWORD s]> conn_params else conn_params in
    let conn_params := if truthy (HOST s) then <["host" := HOST s]> conn_params else conn_params in
    let conn_params := if truthy (PORT s) then <["port" := PORT s]> conn_params else conn_params in
    ret conn_params.

(** [connection.cursor().execute('set schema ' + self.default_schema)] on the
    connection just opened; the raw driver cursor gets no parameters. *)
Definition set_default_schema : M unit :=
  schema <- get (fun w => default_schema (db w)) ;;
  modify (fun w => with_trace (trace w ++ [EvConnCursor]) w) ;;;
  call_driver env (EvExecute ("set schema " +:+ schema) PNone) ;;;
  ret tt.

(** [.upper()] is a [str] method. *)
Definition upper (v : pyval) : M string :=
  match v with
  | PStr s => ret (str_upper s)
  | _ => raise (Exc AttributeError [PStr "object has no attribute 'upper'"])
  end.

Definition get_new_connection (conn_params : gmap string pyval) : M DriverConn :=
  host <- dict_getitem conn_params "host" ;;
  port_value <- dict_getitem conn_params "port" ;;
  port <- py_int env port_value ;;
  user <- dict_getitem conn_params "user" ;;
  password <- dict_getitem conn_params "password" ;;
  call_driver env (EvConnect host port user password) ;;;
  let conn := {| closed := false; conn_autocommit := false |} in
  s <- get (fun w => settings_dict (db w)) ;;
  schema <- upper (NAME s) ;;
  modify_db (with_default_schema schema) ;;;
  set_default_schema ;;;
  ret conn.

Definition _set_autocommit (auto : bool) : M unit :=
  connection_setautocommit env auto.

Definition set_dirty : M unit := ret tt.

Definition init_connection_state : M unit := ret tt.

(** Django's [connect]: the template method that calls the two hooks above,
    stores the connection, applies the AUTOCOMMIT setting and initialises. *)
Definition connect : M unit :=
  conn_params <- get_connection_params ;;
  conn <- get_new_connection conn_params ;;
  modify_db (with_connection (Some conn)) ;;;
  s <- get (fun w => settings_dict (db w)) ;;
  _set_autocommit (AUTOCOMMIT s) ;;;
  modify_db (with_autocommit (AUTOCOMMIT s)) ;;;
  init_connection_state.




Definition leave_transaction_management : M unit :=
  try_finally
    (ts <- get (fun w => transaction_state (db w)) ;;
     match ts with
     | _ :: _ => modify_db (with_transaction_state (removelast ts))
     | [] => raise (Exc TransactionManagementError
                      [PStr "This code isn't under transaction management"])
     end ;;;
     dirty <- get (fun w => _dirty (db w)) ;;
     if dirty then
       rollback ;;;
       raise (Exc TransactionManagementError
                [PStr "Transaction managed block ended with pending COMMIT/ROLLBACK"])
     else ret tt)
    (connection_setautocommit env true) ;;;
  modify_db (with_dirty false).

Definition _commit : M pyval :=
  c <- get (fun w => connection (db w)) ;;
  match c with
  | None => ret PNone
  | Some _ => call_driver env EvCommit
  end.

Definition is_usable : M bool :=
  c <- get (fun w => connection (db w)) ;;
  match c with
  | None => no_attribute "closed"
  | Some c => ret (negb (closed c))
  end.

(** Django's [queries], a read-only property since Django 1.8 (setup.py pins
    2.2): [return list(self.queries_log)], a new list with the entries of the
    log.  The warning it issues when the log is full is left out. *)
Definition queries : M (list QueryLogEntry) := get (fun w => queries (db w)).

End Methods.
End DatabaseWrapper.

(** ** class CursorWrapper *)

Module CursorWrapper.

(** A Python iterator object: the driver cursor iterating over itself, or a
    list iterator over a materialised list. *)
Inductive py_iter :=
| CursorIter
| ListIter (rest : list pyval).

Definition codes_for_integrityerror : list Z := [301%Z].

Section Methods.
Context (env : Env).

Definition set_dirty : M unit :=
  auto <- DatabaseWrapper.get_autocommit ;;
  if negb auto then DatabaseWrapper.set_dirty else ret tt.

(** [iter(self.cursor)] *)
Definition iter_cursor : M py_iter :=
  c <- get cursor ;;
  if native_iter c then ret CursorIter
  else raise (Exc TypeError [PStr "'Cursor' object is not iterable"]).

(** [self.cursor.fetchall()]: every row still pending, which the cursor
    then no longer holds. *)
Definition cursor_fetchall : M (list pyval) :=
  c <- get cursor ;;
  modify (fun w => with_trace (trace w ++ [EvFetchall]) w) ;;;
  modify (with_cursor {| native_iter := native_iter c; pending := [] |}) ;;;
  ret (pending c).

Definition __iter__ : M py_iter :=
  try_except iter_cursor
    (fun e => match exc_cls e with
              | TypeError => Some (rows <- cursor_fetchall ;; ret (ListIter rows))
              | _ => None
              end).

(** [next(it)]: the row and the iterator after the step. *)
Definition next (it : py_iter) : M (pyval * py_iter) :=
  match it with
  | ListIter [] => raise (Exc StopIteration [])
  | ListIter (row :: rest) => ret (row, ListIter rest)
  | CursorIter =>
      c <- get cursor ;;
      match pending c with
      | [] => raise (Exc StopIteration [])
      | row :: rest =>
          modify (with_cursor {| native_iter := native_iter c; pending := rest |}) ;;;
          ret (row, CursorIter)
      end
  end.

(** [for row in it: rows.append(row)]: the loop ends at [StopIteration].
    [None] when the fuel runs out or another exception escapes. *)
Fixpoint consume (fuel : nat) (it : py_iter) (w : World)
  : option (list pyval * py_iter * World) :=
  match fuel with
  | O => None
  | S fuel' =>
      match next it w with
      | (Ret (row, it'), w') =>
          match consume fuel' it' w' with
          | Some (rows, it'', w'') => Some (row :: rows, it'', w'')
          | None => None
          end
      | (Raise e, w') =>
          match exc_cls e with
          | StopIteration => Some ([], it, w')
          | _ => None
          end
      end
  end.

Definition _replace_params (sql : string) : string := str_replace sql "%s" "?".

Definition execute (sql : string) (params : pyval) : M pyval :=
  try_except
    (call_driver env (EvExecute (_replace_params sql) params) ;;; ret tt)
    (fun e =>
       if is_driver_integrity e then
         Some (raise (Exc utils_IntegrityError (exc_args e)))
       else if is_driver_error e then
         Some (code <- exc_getitem env e 0 ;;
               (if in_codes code codes_for_integrityerror
                then raise (Exc utils_IntegrityError (exc_args e))
                else ret tt) ;;;
               raise (Exc utils_DatabaseError (exc_args e)))
       else None) ;;;
  ret PNone.

Definition executemany (sql : string) (param_list : pyval) : M pyval :=
  try_except
    (call_driver env (EvExecuteMany (_replace_params sql) param_list) ;;; ret tt)
    (fun e =>
       if is_driver_integrity e then
         Some (raise (Exc utils_IntegrityError (exc_args e)))
       else if is_driver_error e then
         Some (code <- exc_getitem env e 0 ;;
               (if in_codes code codes_for_integrityerror
                then raise (Exc utils_IntegrityError (exc_args e))
                else ret tt) ;;;
               raise (Exc utils_DatabaseError (exc_args e)))
       else None) ;;;
  ret PNone.

End Methods.
End CursorWrapper.

(** ** class CursorDebugWrapper(CursorWrapper) *)

Module CursorDebugWrapper.
Section Methods.
Context (env : Env).

Definition sanitize_blob (value : pyval) : pyval :=
  match value with
  | PBlob b => PBytes b            (* value.encode() *)
  | _ => value
  end.

(** The two assignments to [params] in the [finally] block. *)
Definition sanitize_params (params : pyval) : pyval :=
  let params := match params with
                | PList l | PTuple l => PList (map sanitize_blob l)
                | _ => params
                end in
  sanitize_blob params.

(** [self.db.queries.append(entry)]: the property hands out a new list, the
    append changes that list and nothing holds on to it.  The value is the
    list after the append. *)
Definition queries_append (entry : QueryLogEntry) : M (list QueryLogEntry) :=
  copy <- DatabaseWrapper.queries ;;
  ret (copy ++ [entry])%list.

Definition logger_debug (record : LogRecord) : M unit :=
  modify (fun w => with_diagnostics (diagnostics w ++ [record]) w).

Definition execute (sql : string) (params : pyval) : M pyval :=
  CursorWrapper.set_dirty ;;;
  start <- time env ;;
  try_finally
    (CursorWrapper.execute env sql params)
    (stop <- time env ;;
     let duration := (stop - start)%Z in
     let params := sanitize_params params in
     c <- get cursor ;;
     let sql := last_executed_query env c sql params in
     queries_append {| q_sql := sql; q_time := format_duration env duration |} ;;;
     logger_debug {| l_duration := duration; l_sql := sql; l_params := params |}).

(** [try: times = len(param_list) / except TypeError: times = '?'], as
    ['%s'] renders it. *)
Definition times (param_list : pyval) : string :=
  match py_len param_list with
  | inr n => str_of_nat n
  | inl _ => "?"
  end.

Definition executemany (sql : string) (param_list : pyval) : M pyval :=
  CursorWrapper.set_dirty ;;;
  start <- time env ;;
  try_finally
    (CursorWrapper.executemany env sql param_list)
    (stop <- time env ;;
     let duration := (stop - start)%Z in
     queries_append {| q_sql := times param_list +:+ " times: " +:+ sql;
                       q_time := format_duration env duration |} ;;;
     logger_debug {| l_duration := duration; l_sql := sql; l_params := param_list |}).

End Methods.
End CursorDebugWrapper.

(** ** Vocabulary of the statements *)

(** [sep.join(segs)] *)
Fixpoint join (sep : string) (segs : list string) : string :=
  match segs with
  | [] => ""
  | [seg] => seg
  | seg :: rest => seg +:+ sep +:+ join sep rest
  end.

(** [p] occurs somewhere in [s]. *)
Definition occurs_in (p s : string) : Prop :=
  exists pre post, s = pre +:+ p +:+ post.

(** The same, decided for the marker. *)
Fixpoint has_marker (s : string) : bool :=
  match s with
  | EmptyString => false
  | String _ rest => is_prefix "%s" s || has_marker rest
  end.

(** The pieces of [s] between the occurrences of the marker, scanning from
    the left as [sql.split('%s')] does. *)
Fixpoint segments (s : string) : list string :=
  match s with
  | EmptyString => [""]
  | String c rest =>
      match is_prefix "%s" s, rest with
      | true, String _ rest' => "" :: segments rest'
      | _, _ =>
          match segments rest with
          | seg :: segs => String c seg :: segs
          | [] => [String c ""]
          end
      end
  end.



(** The text before " times: " in the log entry of [executemany]: the number
    of parameter sets in decimal, or "?" when the argument has no length. *)
Definition times_text (param_list : pyval) : string :=
  match param_list with
  | PList l | PTuple l => str_of_nat (length l)
  | PStr s | PBytes s => str_of_nat (String.length s)
  | _ => "?"
  end.

(** How often the driver was asked to close a connection. *)
Fixpoint count_close (tr : list event) : nat :=
  match tr with
  | [] => 0
  | EvClose :: rest => S (count_close rest)
  | _ :: rest => count_close rest
  end.

(** How often the character [c] occurs in [s]. *)
Fixpoint count_char (c : ascii) (s : string) : nat :=
  match s with
  | EmptyString => 0
  | String a rest => (if Ascii.eqb c a then 1 else 0) + count_char c rest
  end.

(** How often the marker "%s" occurs in [s]: the positions it starts at. *)
Fixpoint count_marker (s : string) : nat :=
  match s with
  | EmptyString => 0
  | String _ rest => (if is_prefix "%s" s then 1 else 0) + count_marker rest
  end.

(** A large-binary-object value. *)
Definition is_blob (v : pyval) : bool :=
  match v with PBlob _ => true | _ => false end.

(** The elements of a list or tuple of parameters. *)
Definition sequence_items (v : pyval) : option (list pyval) :=
  match v with
  | PList l | PTuple l => Some l
  | _ => None
  end.

(** ** Sample configurations *)

Definition sample_settings : Settings :=
  {| NAME := PStr "shop"; USER := PStr "SYSTEM"; PASSWORD := PStr "secret";
     HOST := PStr "hana.local"; PORT := PInt 30015; AUTOCOMMIT := true |}.

(** The same configuration with no host. *)
Definition settings_without_host : Settings :=
  {| NAME := PStr "shop"; USER := PStr "SYSTEM"; PASSWORD := PStr "secret";
     HOST := PStr ""; PORT := PInt 30015; AUTOCOMMIT := true |}.


Definition open_conn : DriverConn := {| closed := false; conn_autocommit := false |}.

(** A wrapper inside a managed transaction block, autocommit off, clean. *)
Definition sample_db : DB :=
  {| settings_dict := sample_settings; connection := Some open_conn;
     autocommit := false; _dirty := false; transaction_state := [true];
     default_schema := "SHOP"; queries := [] |}.

Definition sample_rows : list pyval :=
  [PTuple [PInt 1; PStr "a"]; PTuple [PInt 2; PStr "b"]; PTuple [PInt 1; PStr "a"]].

Definition sample_world : World :=
  {| db := sample_db; cursor := {| native_iter := false; pending := sample_rows |};
     ticks := 0; trace := []; diagnostics := [] |}.

(** A wrapper that has not connected yet. *)
Definition unconnected (s : Settings) : World :=
  with_db (with_connection None
             {| settings_dict := s; connection := None; autocommit := false;
                _dirty := false; transaction_state := []; default_schema := "";
                queries := [] |}) sample_world.


(** A driver that accepts every call and reports five rows for a statement. *)
Definition obliging_driver (_ : list event) (ev : event) : exc + pyval :=
  match ev with
  | EvExecute _ _ | EvExecuteMany _ _ => inr (PInt 5)
  | _ => inr PNone
  end.

(** A driver whose statement execution raises [e]. *)
Definition failing_driver (e : exc) (_ : list event) (ev : event) : exc + pyval :=
  match ev with
  | EvExecute _ _ | EvExecuteMany _ _ => inl e
  | _ => inr PNone
  end.

Definition sample_env (py : py_version) (drv : list event -> event -> exc + pyval) : Env :=
  {| python := py; driver := drv;
     last_executed_query := fun _ sql _ => sql;
     clock := fun n => Z.of_nat (2 * n);
     int_of_str := fun _ => None;
     format_duration := fun d => pretty d +:+ ".000" |}.

(** Driver errors used below: a constraint violation reported under the
    generic class with code 301, and a syntax error with another code. *)
Definition unique_violation : exc :=
  Exc (Driver DatabaseError) [PInt 301; PStr "unique constraint violated"].
Definition syntax_error : exc :=
  Exc (Driver ProgrammingError) [PInt 257; PStr "sql syntax error"].
Definition integrity_violation : exc :=
  Exc (Driver IntegrityError) [PInt 461; PStr "foreign key constraint violation"].

(** A driver that raises [e] on the calls selected by [bad] and accepts the
    others. *)
Definition driver_failing_on (bad : event -> bool) (e : exc) (tr : list event) (ev : event)
  : exc + pyval :=
  if bad ev then inl e else obliging_driver tr ev.

Definition is_connect (ev : event) : bool :=
  match ev with EvConnect _ _ _ _ => true | _ => false end.
Definition is_set_schema (ev : event) : bool :=
  match ev with EvExecute _ PNone => true | _ => false end.
Definition is_setautocommit (ev : event) : bool :=
  match ev with EvSetAutocommit _ => true | _ => false end.
Definition is_close (ev : event) : bool :=
  match ev with EvClose => true | _ => false end.

Definition connection_lost : exc :=
  Exc (Driver OperationalError) [PInt 10709; PStr "connection failed"].

(** The same cursor with native iteration. *)
Definition native_world : World :=
  with_cursor {| native_iter := true; pending := sample_rows |} sample_world.

(** ** Placeholder translation *)

Lemma string_length_ind (P : string -> Prop) :
  (forall s, (forall t, String.length t < String.length s -> P t) -> P s) ->
  forall s, P s.
Proof.
  intros step s. remember (String.length s) as n eqn:Hn.
  revert s Hn. induction n as [n IH] using lt_wf_ind.
  intros s ->. apply step. intros t Ht. exact (IH _ Ht t eq_refl).
Qed.

Lemma is_prefix_marker s :
  is_prefix "%s" s = true -> exists rest, s = String "%"%char (String "s"%char rest).
Proof.
  destruct s as [|a [|b rest]]; cbn [is_prefix]; try discriminate.
  - destruct (Ascii.eqb "%"%char a); discriminate.
  - destruct (Ascii.eqb_spec "%"%char a) as [<-|]; [|discriminate].
    destruct (Ascii.eqb_spec "s"%char b) as [<-|]; [|discriminate].
    eauto.
Qed.

Lemma segments_nonempty s : segments s <> [].
Proof.
  destruct s as [|c rest]; [discriminate|].
  cbn [segments]. destruct (is_prefix "%s" (String c rest)), rest;
    try destruct (segments _); discriminate.
Qed.

Lemma segments_marker rest :
  segments (String "%"%char (String "s"%char rest)) = "" :: segments rest.
Proof. reflexivity. Qed.

Lemma segments_other c rest :
  is_prefix "%s" (String c rest) = false ->
  exists seg segs, segments rest = seg :: segs /\
                   segments (String c rest) = String c seg :: segs.
Proof.
  intros E. destruct (segments rest) as [|seg segs] eqn:Hs.
  { exfalso. exact (segments_nonempty _ Hs). }
  exists seg, segs. split; [reflexivity|].
  cbn [segments]. rewrite E, Hs. reflexivity.
Qed.

Lemma join_push sep c seg segs :
  join sep (String c seg :: segs) = String c (join sep (seg :: segs)).
Proof. destruct segs; reflexivity. Qed.

Lemma join_empty_head sep seg segs :
  join sep ("" :: seg :: segs) = sep +:+ join sep (seg :: segs).
Proof. reflexivity. Qed.

Lemma replace_from_segments s :
  replace_from "%s" "?" 0 s = join "?" (segments s).
Proof.
  induction s as [s IH] using string_length_ind.
  destruct s as [|c rest]; [reflexivity|].
  destruct (is_prefix "%s" (String c rest)) eqn:E.
  - destruct (is_prefix_marker _ E) as [rest' Hs]. injection Hs as -> ->.
    rewrite segments_marker.
    change (replace_from "%s" "?" 0 (String "%"%char (String "s"%char rest')))
      with ("?" +:+ replace_from "%s" "?" 0 rest').
    rewrite IH by (simpl; lia).
    destruct (segments rest') as [|seg segs] eqn:Hs; [by apply segments_nonempty in Hs|].
    reflexivity.
  - destruct (segments_other _ _ E) as (seg & segs & Hr & ->).
    rewrite join_push, <- Hr, <- IH by (simpl; lia).
    cbn [replace_from]. rewrite E. reflexivity.
Qed.

Lemma join_segments s : join "%s" (segments s) = s.
Proof.
  induction s as [s IH] using string_length_ind.
  destruct s as [|c rest]; [reflexivity|].
  destruct (is_prefix "%s" (String c rest)) eqn:E.
  - destruct (is_prefix_marker _ E) as [rest' Hs]. injection Hs as -> ->.
    rewrite segments_marker.
    destruct (segments rest') as [|seg segs] eqn:Hs; [by apply segments_nonempty in Hs|].
    rewrite join_empty_head, <- Hs, IH by (simpl; lia). reflexivity.
  - destruct (segments_other _ _ E) as (seg & segs & Hr & ->).
    rewrite join_push, <- Hr, IH by (simpl; lia). reflexivity.
Qed.

Lemma segments_head_prefix s seg segs :
  segments s = seg :: segs -> is_prefix seg s = true.
Proof.
  revert seg segs. induction s as [s IH] using string_length_ind.
  intros seg segs Hs. destruct s as [|c rest].
  { injection Hs as <- <-. reflexivity. }
  destruct (is_prefix "%s" (String c rest)) eqn:E.
  - destruct (is_prefix_marker _ E) as [rest' Hr]. injection Hr as -> ->.
    rewrite segments_marker in Hs. injection Hs as <- <-. reflexivity.
  - destruct (segments_other _ _ E) as (seg' & segs' & Hr & Hc).
    rewrite Hc in Hs. injection Hs as <- <-. simpl.
    rewrite Ascii.eqb_refl. eapply IH; [simpl; lia|exact Hr].
Qed.

Lemma is_prefix_marker_mono c seg rest :
  is_prefix seg rest = true ->
  is_prefix "%s" (String c seg) = true -> is_prefix "%s" (String c rest) = true.
Proof.
  intros Hp Hm. apply is_prefix_marker in Hm as [r Hr]. injection Hr as -> ->.
  destruct rest as [|b rest]; [discriminate|]. cbn [is_prefix] in Hp.
  destruct (Ascii.eqb_spec "s"%char b) as [<-|]; [reflexivity|discriminate].
Qed.

Lemma segments_clean s : Forall (fun seg => has_marker seg = false) (segments s).
Proof.
  induction s as [s IH] using string_length_ind.
  destruct s as [|c rest]; [repeat constructor|].
  destruct (is_prefix "%s" (String c rest)) eqn:E.
  - destruct (is_prefix_marker _ E) as [rest' Hr]. injection Hr as -> ->.
    rewrite segments_marker. constructor; [reflexivity|]. apply IH. simpl; lia.
  - destruct (segments_other _ _ E) as (seg & segs & Hr & ->).
    assert (Hf : Forall (fun seg => has_marker seg = false) (seg :: segs)).
    { rewrite <- Hr. apply IH. simpl; lia. }
    inversion Hf as [|? ? Hseg Hsegs]; subst. constructor; [|assumption].
    cbn [has_marker]. rewrite Hseg, orb_false_r.
    destruct (is_prefix "%s" (String c seg)) eqn:E'; [|reflexivity].
    rewrite (is_prefix_marker_mono c seg rest) in E; [discriminate| |assumption].
    eapply segments_head_prefix, Hr.
Qed.

Lemma has_marker_occurs s : has_marker s = true <-> occurs_in "%s" s.
Proof.
  split.
  - induction s as [|c rest IH]; [discriminate|].
    cbn [has_marker]. intros [E|E]%orb_true_iff.
    + destruct (is_prefix_marker _ E) as [r ->]. exists "", r. reflexivity.
    + destruct (IH E) as (pre & post & ->). exists (String c pre), post. reflexivity.
  - intros (pre & post & ->). induction pre as [|c pre IH]; [reflexivity|].
    change (has_marker (String c (pre +:+ "%s" +:+ post)) = true).
    cbn [has_marker]. rewrite IH. apply orb_true_r.
Qed.

Lemma segments_no_marker s : has_marker s = false -> segments s = [s].
Proof.
  induction s as [|c rest IH]; [reflexivity|].
  cbn [has_marker]. intros [E Hr]%orb_false_iff.
  destruct (segments_other _ _ E) as (seg & segs & Hs & ->).
  rewrite (IH Hr) in Hs. injection Hs as <- <-. reflexivity.
Qed.

Lemma not_occurs_has_marker s : ~ occurs_in "%s" s <-> has_marker s = false.
Proof.
  rewrite <- has_marker_occurs. destruct (has_marker s); split; congruence.
Qed.

(** Symbolic execution of the statement combinators. *)
Ltac run :=
  cbv beta iota zeta delta
    [bind try_except try_finally call_driver ret raise get modify modify_db time
     exc_getitem dict_getitem no_attribute fst snd].

(** What [execute] does to the store: one more driver call on the trace. *)
Lemma execute_world env sql params w :
  (CursorWrapper.execute env sql params w).2
  = with_trace (trace w ++ [EvExecute (CursorWrapper._replace_params sql) params]) w.
Proof.
  unfold CursorWrapper.execute. run.
  destruct (driver env (trace w) _) as [e|v]; [|reflexivity].
  destruct (is_driver_integrity e); [reflexivity|].
  destruct (is_driver_error e); [|reflexivity].
  destruct (python env); run; [|reflexivity].
  destruct (exc_args e !! 0) as [code|]; run; [|reflexivity].
  destruct (in_codes code CursorWrapper.codes_for_integrityerror); reflexivity.
Qed.

Lemma executemany_world env sql param_list w :
  (CursorWrapper.executemany env sql param_list w).2
  = with_trace (trace w ++ [EvExecuteMany (CursorWrapper._replace_params sql) param_list]) w.
Proof.
  unfold CursorWrapper.executemany. run.
  destruct (driver env (trace w) _) as [e|v]; [|reflexivity].
  destruct (is_driver_integrity e); [reflexivity|].
  destruct (is_driver_error e); [|reflexivity].
  destruct (python env); run; [|reflexivity].
  destruct (exc_args e !! 0) as [code|]; run; [|reflexivity].
  destruct (in_codes code CursorWrapper.codes_for_integrityerror); reflexivity.
Qed.

Lemma replace_params_segments sql :
  CursorWrapper._replace_params sql = join "?" (segments sql).
Proof. apply replace_from_segments. Qed.

(** C1: [execute] and [executemany] hand the driver [_replace_params sql];
    the text splits into pieces free of the marker "%s" such that the input is
    the pieces joined by "%s" and the translation is the same pieces, in the
    same order, joined by "?"; a text without the marker is passed on
    unchanged. *)
Theorem C1_placeholders_translated (env : Env) (sql : string) (params : pyval) (w : World) :
  trace (CursorWrapper.execute env sql params w).2
    = (trace w ++ [EvExecute (CursorWrapper._replace_params sql) params])%list /\
  trace (CursorWrapper.executemany env sql params w).2
    = (trace w ++ [EvExecuteMany (CursorWrapper._replace_params sql) params])%list /\
  (exists segs : list string,
      sql = join "%s" segs /\
      CursorWrapper._replace_params sql = join "?" segs /\
      Forall (fun seg => ~ occurs_in "%s" seg) segs) /\
  (~ occurs_in "%s" sql -> CursorWrapper._replace_params sql = sql).
Proof.
  rewrite execute_world, executemany_world. repeat split.
  - exists (segments sql). repeat split.
    + symmetry. apply join_segments.
    + apply replace_params_segments.
    + eapply Forall_impl; [apply segments_clean|].
      intros seg Hseg. cbn beta in Hseg. by apply not_occurs_has_marker.
  - intros Hno%not_occurs_has_marker.
    rewrite replace_params_segments, (segments_no_marker _ Hno). reflexivity.
Qed.

Lemma C1_witness :
  ~ occurs_in "%s" "SELECT 1 FROM DUMMY" /\
  CursorWrapper._replace_params "SELECT 1 FROM DUMMY" = "SELECT 1 FROM DUMMY".
Proof.
  split.
  - apply not_occurs_has_marker. reflexivity.
  - apply (C1_placeholders_translated (sample_env Py3 obliging_driver)
             "SELECT 1 FROM DUMMY" (PTuple []) sample_world).
    apply not_occurs_has_marker. reflexivity.
Defined.

(** ** Error classification *)

Section Classification.
Context (env : Env) (sql : string) (params : pyval) (w : World) (e : exc).
Hypothesis driver_raises :
  driver env (trace w) (EvExecute (CursorWrapper._replace_params sql) params) = inl e.

(** The driver's own [IntegrityError] class is re-raised as Django's, with
    the same arguments, on either interpreter line. *)
Lemma execute_integrity_class :
  is_driver_integrity e = true ->
  (CursorWrapper.execute env sql params w).1 = Raise (Exc utils_IntegrityError (exc_args e)).
Proof.
  intros Hi. unfold CursorWrapper.execute. run.
  rewrite driver_raises, Hi. reflexivity.
Qed.

(** An exception from outside the driver's family passes through as it is. *)
Lemma execute_foreign_exception :
  is_driver_error e = false ->
  (CursorWrapper.execute env sql params w).1 = Raise e.
Proof.
  intros Hd. unfold CursorWrapper.execute. run. rewrite driver_raises.
  replace (is_driver_integrity e) with false.
  - rewrite Hd. reflexivity.
  - unfold is_driver_error, is_driver_integrity in *. by destruct (exc_cls e).
Qed.

(** On Python 3 the second handler never gets as far as the code test: the
    subscript on the exception raises [TypeError]. *)
Lemma execute_other_class_py3 :
  python env = Py3 -> is_driver_error e = true -> is_driver_integrity e = false ->
  (CursorWrapper.execute env sql params w).1
  = Raise (Exc TypeError [PStr "object is not subscriptable"]).
Proof.
  intros Hpy Hd Hi. unfold CursorWrapper.execute. run.
  rewrite driver_raises, Hi, Hd, Hpy. reflexivity.
Qed.

(** On Python 2 the first argument is the code, and the mapping works. *)
Lemma execute_other_class_py2 code rest :
  python env = Py2 -> is_driver_error e = true -> is_driver_integrity e = false ->
  exc_args e = code :: rest ->
  (CursorWrapper.execute env sql params w).1
  = Raise (Exc (if in_codes code CursorWrapper.codes_for_integrityerror
                then utils_IntegrityError else utils_DatabaseError) (exc_args e)).
Proof.
  intros Hpy Hd Hi Ha. unfold CursorWrapper.execute. run.
  rewrite driver_raises, Hi, Hd, Hpy, Ha. run. cbn [lookup list_lookup].
  destruct (in_codes code CursorWrapper.codes_for_integrityerror); reflexivity.
Qed.

End Classification.

(** C2: on Python 3 a driver error outside the [IntegrityError] class is not
    re-raised as [IntegrityError] or [DatabaseError]: with code 301, and with
    another code, [execute] and [executemany] end in the [TypeError] of the
    subscript [e[0]].  The driver's own [IntegrityError] is mapped, with its
    arguments. *)
Theorem C2_code_mapping_py3 :
  let insert := "INSERT INTO t VALUES (%s)" in
  let run_with e := sample_env Py3 (failing_driver e) in
  (CursorWrapper.execute (run_with unique_violation) insert (PTuple [PInt 1]) sample_world).1
    = Raise (Exc TypeError [PStr "object is not subscriptable"]) /\
  (CursorWrapper.execute (run_with syntax_error) insert (PTuple [PInt 1]) sample_world).1
    = Raise (Exc TypeError [PStr "object is not subscriptable"]) /\
  (CursorWrapper.executemany (run_with unique_violation) insert (PList [PTuple [PInt 1]]) sample_world).1
    = Raise (Exc TypeError [PStr "object is not subscriptable"]) /\
  (CursorWrapper.executemany (run_with syntax_error) insert (PList [PTuple [PInt 1]]) sample_world).1
    = Raise (Exc TypeError [PStr "object is not subscriptable"]) /\
  (CursorWrapper.execute (run_with integrity_violation) insert (PTuple [PInt 1]) sample_world).1
    = Raise (Exc utils_IntegrityError (exc_args integrity_violation)).
Proof. repeat split; reflexivity. Qed.

(** ** Connecting *)

Lemma get_connection_params_named w :
  truthy (NAME (settings_dict (db w))) = true ->
  exists conn_params : gmap string pyval,
    DatabaseWrapper.get_connection_params w = (Ret conn_params, w) /\
    let s := settings_dict (db w) in
    conn_params !! "host" = (if truthy (HOST s) then Some (HOST s) else None) /\
    conn_params !! "port" = (if truthy (PORT s) then Some (PORT s) else None) /\
    conn_params !! "user" = (if truthy (USER s) then Some (USER s) else None) /\
    conn_params !! "password" = (if truthy (PASSWORD s) then Some (PASSWORD s) else None).
Proof.
  intros Hname. unfold DatabaseWrapper.get_connection_params. run.
  rewrite Hname. cbn [negb]. eexists. split; [reflexivity|]. cbn zeta.
  destruct (truthy (USER _)), (truthy (PASSWORD _)), (truthy (HOST _)), (truthy (PORT _));
    repeat split; by simplify_map_eq.
Qed.







(** ** Leaving a managed transaction block *)

(** Whatever the driver answers, the [finally] clause asks it for autocommit
    as the last call before control returns. *)
Lemma leave_always_asks_for_autocommit env w c :
  connection (db w) = Some c ->
  last (trace (DatabaseWrapper.leave_transaction_management env w).2)
  = Some (EvSetAutocommit true).
Proof.
  intros Hc. unfold DatabaseWrapper.leave_transaction_management,
    DatabaseWrapper.rollback, connection_setautocommit. run.
  destruct (transaction_state (db w)) as [|m ts]; cbn; rewrite ?Hc; cbn.
  - destruct (driver env (trace w) _); cbn; by rewrite last_snoc.
  - destruct (_dirty (db w)); cbn; rewrite ?Hc; cbn.
    + destruct (driver env (trace w) EvRollback); cbn; rewrite ?Hc; cbn;
        destruct (driver env _ (EvSetAutocommit true)); cbn; by rewrite last_snoc.
    + destruct (driver env _ (EvSetAutocommit true)); cbn; by rewrite last_snoc.
Qed.



(** ** The debug wrapper and the dirty flag *)

Lemma execute_run env sql params w :
  CursorWrapper.execute env sql params w
  = ((CursorWrapper.execute env sql params w).1,
     with_trace (trace w ++ [EvExecute (CursorWrapper._replace_params sql) params]) w).
Proof. rewrite <- (execute_world env). by destruct (CursorWrapper.execute _ _ _ _). Qed.

Lemma executemany_run env sql param_list w :
  CursorWrapper.executemany env sql param_list w
  = ((CursorWrapper.executemany env sql param_list w).1,
     with_trace (trace w ++ [EvExecuteMany (CursorWrapper._replace_params sql) param_list]) w).
Proof. rewrite <- (executemany_world env). by destruct (CursorWrapper.executemany _ _ _ _). Qed.

Lemma set_dirty_run w : CursorWrapper.set_dirty w = (Ret tt, w).
Proof.
  unfold CursorWrapper.set_dirty, DatabaseWrapper.get_autocommit, DatabaseWrapper.set_dirty.
  run. by destruct (autocommit (db w)).
Qed.

(** The debug wrapper's [execute], step by step: the clock is read, the
    plain wrapper runs, the clock is read again, the entry goes to a copy of
    the query log and one record to the logger; the outcome is the plain
    wrapper's. *)
Lemma debug_execute_run env sql params w :
  CursorDebugWrapper.execute env sql params w
  = let duration := (clock env (S (ticks w)) - clock env (ticks w))%Z in
    let params' := CursorDebugWrapper.sanitize_params params in
    let sql' := last_executed_query env (cursor w) sql params' in
    ((CursorWrapper.execute env sql params (with_ticks (S (ticks w)) w)).1,
     {| db := db w;
        cursor := cursor w;
        ticks := S (S (ticks w));
        trace := trace w ++ [EvExecute (CursorWrapper._replace_params sql) params];
        diagnostics := diagnostics w ++
          [{| l_duration := duration; l_sql := sql'; l_params := params' |}] |}).
Proof.
  unfold CursorDebugWrapper.execute, CursorDebugWrapper.queries_append,
    DatabaseWrapper.queries, CursorDebugWrapper.logger_debug. run.
  rewrite set_dirty_run, execute_run. reflexivity.
Qed.

Lemma debug_executemany_run env sql param_list w :
  CursorDebugWrapper.executemany env sql param_list w
  = let duration := (clock env (S (ticks w)) - clock env (ticks w))%Z in
    ((CursorWrapper.executemany env sql param_list (with_ticks (S (ticks w)) w)).1,
     {| db := db w;
        cursor := cursor w;
        ticks := S (S (ticks w));
        trace := trace w ++ [EvExecuteMany (CursorWrapper._replace_params sql) param_list];
        diagnostics := diagnostics w ++
          [{| l_duration := duration; l_sql := sql; l_params := param_list |}] |}).
Proof.
  unfold CursorDebugWrapper.executemany, CursorDebugWrapper.queries_append,
    DatabaseWrapper.queries, CursorDebugWrapper.logger_debug. run.
  rewrite set_dirty_run, executemany_run. reflexivity.
Qed.

(** C5: the entry never reaches the connection's query log.  [db.queries]
    hands out a copy, the append lands in that copy, and after a call of the
    debug wrapper's [execute] the log is what it was, whether the delegated
    [execute] returned or raised (the outcome is the delegated one). *)
Theorem C5_debug_execute_log_not_grown (env : Env) (sql : string) (params : pyval)
    (w : World) :
  queries (db (CursorDebugWrapper.execute env sql params w).2) = queries (db w) /\
  (CursorDebugWrapper.execute env sql params w).1
    = (CursorWrapper.execute env sql params (with_ticks (S (ticks w)) w)).1 /\
  forall entry : QueryLogEntry,
    CursorDebugWrapper.queries_append entry w = (Ret (queries (db w) ++ [entry])%list, w).
Proof.
  rewrite debug_execute_run. repeat split.
Qed.

(** C6 as stated fails: with autocommit off and a clean connection, the
    statement reaches the driver and the dirty flag is still clear. *)
Lemma C6_counterexample :
  DatabaseWrapper.get_autocommit sample_world = (Ret false, sample_world) /\
  trace (CursorWrapper.execute (sample_env Py3 obliging_driver)
           "UPDATE t SET a = %s" (PTuple [PInt 1]) sample_world).2
    = [EvExecute "UPDATE t SET a = ?" (PTuple [PInt 1])] /\
  _dirty (db (CursorWrapper.execute (sample_env Py3 obliging_driver)
                "UPDATE t SET a = %s" (PTuple [PInt 1]) sample_world).2) = false.
Proof. repeat split. Qed.

(** C6, amended: the connection's [set_dirty] does nothing, so a call of the
    cursor wrapper's [execute], and of the debug wrapper's, leaves the dirty
    flag of the owning connection as it found it, in or out of autocommit
    mode. *)
Theorem C6_dirty_flag_untouched (env : Env) (sql : string) (params : pyval) (w : World) :
  DatabaseWrapper.set_dirty w = (Ret tt, w) /\
  _dirty (db (CursorWrapper.execute env sql params w).2) = _dirty (db w) /\
  _dirty (db (CursorDebugWrapper.execute env sql params w).2) = _dirty (db w).
Proof.
  split; [reflexivity|]. split.
  - rewrite execute_world. reflexivity.
  - rewrite debug_execute_run. reflexivity.
Qed.

(** C9 as stated fails: the driver reports five rows, the wrapper returns
    [None]. *)
Lemma C9_counterexample :
  driver (sample_env Py3 obliging_driver) (trace sample_world)
    (EvExecute (CursorWrapper._replace_params "DELETE FROM t") (PTuple [])) = inr (PInt 5) /\
  (CursorWrapper.execute (sample_env Py3 obliging_driver) "DELETE FROM t" (PTuple [])
     sample_world).1 = Ret PNone.
Proof. split; reflexivity. Qed.

(** C9, amended: when the driver's [execute] succeeds, the cursor wrapper's
    [execute] returns [None], whatever value the driver returned. *)
Theorem C9_execute_returns_none (env : Env) (sql : string) (params : pyval) (w : World)
    (v : pyval) :
  driver env (trace w) (EvExecute (CursorWrapper._replace_params sql) params) = inr v ->
  (CursorWrapper.execute env sql params w).1 = Ret PNone.
Proof.
  intros Hok. unfold CursorWrapper.execute. run. rewrite Hok. reflexivity.
Qed.

Lemma C9_witness :
  (CursorWrapper.execute (sample_env Py3 obliging_driver) "DELETE FROM t WHERE a = %s"
     (PTuple [PInt 7]) sample_world).1 = Ret PNone.
Proof.
  apply (C9_execute_returns_none (sample_env Py3 obliging_driver)
           "DELETE FROM t WHERE a = %s" (PTuple [PInt 7]) sample_world (PInt 5)).
  reflexivity.
Defined.

(** C10: the entry never reaches the connection's query log.  After a call
    of the debug wrapper's [executemany] the log is what it was, whether the
    delegated call returned or raised; the text built for the entry is the
    number of parameter sets, or "?" for an argument without a length, then
    " times: ", then the SQL text as it was passed in. *)
Theorem C10_debug_executemany_log_not_grown (env : Env) (sql : string)
    (param_list : pyval) (w : World) :
  queries (db (CursorDebugWrapper.executemany env sql param_list w).2) = queries (db w) /\
  (CursorDebugWrapper.executemany env sql param_list w).1
    = (CursorWrapper.executemany env sql param_list (with_ticks (S (ticks w)) w)).1 /\
  CursorDebugWrapper.times param_list +:+ " times: " +:+ sql
    = times_text param_list +:+ " times: " +:+ sql.
Proof.
  rewrite debug_executemany_run. repeat split.
  by destruct param_list.
Qed.

Example times_text_list :
  times_text (PList [PTuple [PInt 1]; PTuple [PInt 2]; PTuple [PInt 3]]) = "3".
Proof. reflexivity. Qed.

Example times_text_iterator : times_text (PIter [PTuple [PInt 1]]) = "?".
Proof. reflexivity. Qed.

Example debug_executemany_raising :
  let run := CursorDebugWrapper.executemany (sample_env Py3 (failing_driver integrity_violation))
               "INSERT INTO t VALUES (%s)" (PIter [PTuple [PInt 1]]) sample_world in
  run.1 = Raise (Exc utils_IntegrityError (exc_args integrity_violation)) /\
  queries (db run.2) = [] /\
  CursorDebugWrapper.queries_append
    {| q_sql := CursorDebugWrapper.times (PIter [PTuple [PInt 1]]) +:+ " times: "
                  +:+ "INSERT INTO t VALUES (%s)";
       q_time := "2.000" |} sample_world
  = (Ret [{| q_sql := "? times: INSERT INTO t VALUES (%s)"; q_time := "2.000" |}],
     sample_world).
Proof. repeat split; reflexivity. Qed.

(** ** Closing *)

Lemma count_close_snoc tr ev :
  count_close (tr ++ [ev]) = count_close tr + count_close [ev].
Proof.
  induction tr as [|ev' tr IH]; [reflexivity|].
  destruct ev'; cbn [app count_close]; rewrite IH; reflexivity.
Qed.

(** While a driver connection is held, [is_usable] reads its [closed]
    attribute and does not raise. *)
Lemma is_usable_connected w c :
  connection (db w) = Some c -> DatabaseWrapper.is_usable w = (Ret (negb (closed c)), w).
Proof. intros Hc. unfold DatabaseWrapper.is_usable. run. rewrite Hc. reflexivity. Qed.

(** C7 as stated fails: after a successful [close()], [is_usable()] raises
    [AttributeError] instead of returning false. *)
Lemma C7_counterexample :
  (DatabaseWrapper.close (sample_env Py3 obliging_driver) sample_world).1 = Ret tt /\
  (DatabaseWrapper.is_usable
     (DatabaseWrapper.close (sample_env Py3 obliging_driver) sample_world).2).1
  = Raise (Exc AttributeError [PStr "'NoneType' object has no attribute 'closed'"]).
Proof. split; reflexivity. Qed.

(** C7, amended: after [close()] has returned, the wrapper holds no
    connection and [is_usable()] raises [AttributeError]; [is_usable()]
    answers without raising while a connection is held, and then returns
    false exactly when the driver reports it closed.  A second [close()]
    returns normally and changes nothing, so the driver's [close] has been
    called exactly once. *)
Theorem C7_close_once_then_unusable (env : Env) (w : World) (c : DriverConn) (v : pyval) :
  connection (db w) = Some c ->
  driver env (trace w) EvClose = inr v ->
  let w1 := (DatabaseWrapper.close env w).2 in
  (DatabaseWrapper.close env w).1 = Ret tt /\
  connection (db w1) = None /\
  DatabaseWrapper.is_usable w = (Ret (negb (closed c)), w) /\
  DatabaseWrapper.is_usable w1
    = (Raise (Exc AttributeError [PStr "'NoneType' object has no attribute 'closed'"]), w1) /\
  DatabaseWrapper.close env w1 = (Ret tt, w1) /\
  trace w1 = (trace w ++ [EvClose])%list /\
  count_close (trace (DatabaseWrapper.close env w1).2) = S (count_close (trace w)).
Proof.
  intros Hc Hok. cbn zeta.
  assert (Hrun : DatabaseWrapper.close env w
                 = (Ret tt, with_db (with_connection None (db w))
                              (with_trace (trace w ++ [EvClose]) w))).
  { unfold DatabaseWrapper.close, DatabaseWrapper.validate_thread_sharing,
      connection_close. run. rewrite Hc. cbn. rewrite Hc. cbn. rewrite Hok. reflexivity. }
  rewrite Hrun. cbn [fst snd].
  assert (Hagain : DatabaseWrapper.close env
                     (with_db (with_connection None (db w))
                        (with_trace (trace w ++ [EvClose]) w))
                   = (Ret tt, with_db (with_connection None (db w))
                                (with_trace (trace w ++ [EvClose]) w))) by reflexivity.
  rewrite Hagain. cbn [fst snd].
  repeat split; try reflexivity.
  - by apply is_usable_connected.
  - cbn. rewrite count_close_snoc. cbn. lia.
Qed.

Lemma C7_witness :
  (DatabaseWrapper.close (sample_env Py3 obliging_driver) sample_world).1 = Ret tt /\
  DatabaseWrapper.is_usable sample_world = (Ret true, sample_world) /\
  count_close
    (trace (DatabaseWrapper.close (sample_env Py3 obliging_driver)
              (DatabaseWrapper.close (sample_env Py3 obliging_driver) sample_world).2).2) = 1.
Proof.
  destruct (C7_close_once_then_unusable (sample_env Py3 obliging_driver) sample_world
              open_conn PNone eq_refl eq_refl) as (Hr & _ & Hu & _ & _ & _ & Hn).
  exact (conj Hr (conj Hu Hn)).
Defined.

(** ** Iteration *)

Lemma consume_step fuel it w :
  CursorWrapper.consume (S fuel) it w
  = match CursorWrapper.next it w with
    | (Ret (row, it'), w') =>
        match CursorWrapper.consume fuel it' w' with
        | Some (rows, it'', w'') => Some (row :: rows, it'', w'')
        | None => None
        end
    | (Raise e, w') =>
        match exc_cls e with
        | StopIteration => Some ([], it, w')
        | _ => None
        end
    end.
Proof. reflexivity. Qed.

Lemma consume_list rows extra w :
  CursorWrapper.consume (S (length rows + extra)) (CursorWrapper.ListIter rows) w
  = Some (rows, CursorWrapper.ListIter [], w).
Proof.
  induction rows as [|row rows IH]; [reflexivity|].
  cbn [length Nat.add]. rewrite consume_step. unfold CursorWrapper.next. run.
  rewrite IH. reflexivity.
Qed.

Lemma consume_cursor rows : forall extra w,
  pending (cursor w) = rows ->
  exists w',
    CursorWrapper.consume (S (length rows + extra)) CursorWrapper.CursorIter w
      = Some (rows, CursorWrapper.CursorIter, w') /\
    pending (cursor w') = [] /\ trace w' = trace w /\ db w' = db w.
Proof.
  induction rows as [|row rows IH]; intros extra w Hp.
  - exists w. cbn [length Nat.add]. rewrite consume_step. unfold CursorWrapper.next. run.
    rewrite Hp. done.
  - cbn [length Nat.add]. rewrite consume_step. unfold CursorWrapper.next at 1. run.
    rewrite Hp.
    destruct (IH extra (with_cursor {| native_iter := native_iter (cursor w); pending := rows |} w)
                eq_refl) as (w' & Hrun & Hnone & Htr & Hdb).
    exists w'. rewrite Hrun. done.
Qed.

(** C8: whether the driver cursor iterates natively or the wrapper falls
    back to [fetchall], consuming the iterator returned by [__iter__] yields
    the cursor's pending rows, each once and in the driver's order, and ends;
    consuming the exhausted iterator again yields nothing. *)
Theorem C8_iteration_yields_each_row_once (w : World) (extra fuel : nat) :
  let rows := pending (cursor w) in
  exists (it it' : CursorWrapper.py_iter) (w1 w2 : World),
    CursorWrapper.__iter__ w = (Ret it, w1) /\
    it = (if native_iter (cursor w) then CursorWrapper.CursorIter
          else CursorWrapper.ListIter rows) /\
    CursorWrapper.consume (S (length rows + extra)) it w1 = Some (rows, it', w2) /\
    (CursorWrapper.next it' w2).1 = Raise (Exc StopIteration []) /\
    CursorWrapper.consume (S fuel) it' w2 = Some ([], it', w2).
Proof.
  cbn zeta. unfold CursorWrapper.__iter__, CursorWrapper.iter_cursor,
    CursorWrapper.cursor_fetchall. run.
  destruct (native_iter (cursor w)) eqn:Hn; run; cbn [exc_cls].
  - destruct (consume_cursor (pending (cursor w)) extra w eq_refl)
      as (w2 & Hrun & Hnone & _ & _).
    exists CursorWrapper.CursorIter, CursorWrapper.CursorIter, w, w2.
    repeat split; [exact Hrun| |].
    + unfold CursorWrapper.next. run. rewrite Hnone. reflexivity.
    + rewrite consume_step. unfold CursorWrapper.next. run. rewrite Hnone. reflexivity.
  - eexists (CursorWrapper.ListIter (pending (cursor w))), (CursorWrapper.ListIter []), _, _.
    split; [reflexivity|]. split; [reflexivity|]. split; [apply consume_list|].
    split; reflexivity.
Qed.

Example iterate_fallback :
  let env_rows := sample_rows in
  exists it w1 w2,
    CursorWrapper.__iter__ sample_world = (Ret it, w1) /\
    trace w1 = [EvFetchall] /\
    CursorWrapper.consume 10 it w1 = Some (env_rows, CursorWrapper.ListIter [], w2).
Proof. cbn zeta. do 3 eexists. repeat split. Qed.

(** ** Sample runs *)

Example replace_two_markers :
  CursorWrapper._replace_params "SELECT * FROM t WHERE a = %s AND b = %s"
  = "SELECT * FROM t WHERE a = ? AND b = ?".
Proof. reflexivity. Qed.

Example replace_inside_literal :
  CursorWrapper._replace_params "SELECT '100%s' FROM t" = "SELECT '100?' FROM t".
Proof. reflexivity. Qed.

Example replace_doubled_percent : CursorWrapper._replace_params "%%ss%" = "%?s%".
Proof. reflexivity. Qed.

Example str_replace_empty_old : str_replace "ab" "" "-" = "-a-b-".
Proof. reflexivity. Qed.

Example str_of_nat_decimal : str_of_nat 0 = "0" /\ str_of_nat 12 = "12" /\ str_of_nat 1000 = "1000".
Proof. repeat split; reflexivity. Qed.

Example code_mapping_py2 :
  (CursorWrapper.execute (sample_env Py2 (failing_driver unique_violation))
     "INSERT INTO t VALUES (%s)" (PTuple [PInt 1]) sample_world).1
  = Raise (Exc utils_IntegrityError (exc_args unique_violation)).
Proof. reflexivity. Qed.

Example connect_succeeds :
  trace (DatabaseWrapper.connect (sample_env Py3 obliging_driver) (unconnected sample_settings)).2
  = [EvConnect (PStr "hana.local") 30015 (PStr "SYSTEM") (PStr "secret");
     EvConnCursor; EvExecute "set schema SHOP" PNone; EvSetAutocommit true].
Proof. reflexivity. Qed.

(** * Further properties of the code *)

(** ** The translation as a text function *)

Lemma replace_params_marker rest :
  CursorWrapper._replace_params (String "%"%char (String "s"%char rest))
  = String "?"%char (CursorWrapper._replace_params rest).
Proof. reflexivity. Qed.

Lemma replace_params_other c rest :
  is_prefix "%s" (String c rest) = false ->
  CursorWrapper._replace_params (String c rest)
  = String c (CursorWrapper._replace_params rest).
Proof.
  intros E. unfold CursorWrapper._replace_params, str_replace.
  cbn [replace_from]. rewrite E. reflexivity.
Qed.

(** Induction along the scan of [str.replace]: either the marker is at the
    front and two characters are consumed, or one character is copied. *)
Lemma marker_scan_ind (P : string -> Prop) :
  P "" ->
  (forall rest, P rest -> P (String "%"%char (String "s"%char rest))) ->
  (forall c rest, is_prefix "%s" (String c rest) = false -> P rest -> P (String c rest)) ->
  forall s, P s.
Proof.
  intros Hnil Hmark Hother s.
  induction s as [s IH] using string_length_ind.
  destruct s as [|c rest]; [exact Hnil|].
  destruct (is_prefix "%s" (String c rest)) eqn:E.
  - destruct (is_prefix_marker _ E) as [rest' Hr]. injection Hr as -> ->.
    apply Hmark, IH. simpl; lia.
  - apply Hother; [exact E|]. apply IH. simpl; lia.
Qed.

Lemma replace_params_head c rest out :
  CursorWrapper._replace_params rest = String c out ->
  c = "?"%char \/ exists rest', rest = String c rest'.
Proof.
  destruct rest as [|a rest]; [discriminate|].
  destruct (is_prefix "%s" (String a rest)) eqn:E.
  - destruct (is_prefix_marker _ E) as [rest' Hr]. injection Hr as -> ->.
    rewrite replace_params_marker. intros [= <- _]. by left.
  - rewrite (replace_params_other _ _ E). intros [= <- _]. right. eauto.
Qed.

Lemma replace_params_clean s : has_marker (CursorWrapper._replace_params s) = false.
Proof.
  induction s as [|rest IH|c rest E IH] using marker_scan_ind.
  - reflexivity.
  - rewrite replace_params_marker. cbn [has_marker]. rewrite IH. reflexivity.
  - rewrite (replace_params_other _ _ E). cbn [has_marker]. rewrite IH, orb_false_r.
    destruct (is_prefix "%s" (String c (CursorWrapper._replace_params rest))) eqn:E';
      [|reflexivity].
    destruct (is_prefix_marker _ E') as [out Hout]. injection Hout as -> Hout.
    destruct (replace_params_head _ _ _ Hout) as [?|[rest' ->]]; [discriminate|].
    discriminate E.
Qed.

(** X1: the text handed to the driver never contains the marker "%s", so
    translating a second time changes nothing. *)
Theorem X1_translation_is_final (sql : string) :
  ~ occurs_in "%s" (CursorWrapper._replace_params sql) /\
  CursorWrapper._replace_params (CursorWrapper._replace_params sql)
    = CursorWrapper._replace_params sql.
Proof.
  pose proof (replace_params_clean sql) as Hclean. split.
  - by apply not_occurs_has_marker.
  - rewrite (replace_params_segments (CursorWrapper._replace_params sql)).
    rewrite (segments_no_marker _ Hclean). reflexivity.
Qed.

(** X2: each marker becomes one question mark and the question marks already
    in the text stay, so the translation has as many "?" as the text had "?"
    and "%s" together, and is shorter by one character per marker. *)
Theorem X2_question_marks_counted (sql : string) :
  count_char "?" (CursorWrapper._replace_params sql)
    = count_char "?" sql + count_marker sql /\
  String.length sql
    = String.length (CursorWrapper._replace_params sql) + count_marker sql.
Proof.
  induction sql as [|rest [IHq IHl]|c rest E [IHq IHl]] using marker_scan_ind.
  - split; reflexivity.
  - rewrite replace_params_marker.
    change (count_marker (String "%"%char (String "s"%char rest)))
      with (1 + ((if is_prefix "%s" (String "s"%char rest) then 1 else 0) + count_marker rest)).
    change (is_prefix "%s" (String "s"%char rest)) with false.
    cbn [count_char String.length Ascii.eqb Bool.eqb]. rewrite IHq, IHl. split; lia.
  - rewrite (replace_params_other _ _ E). cbn [count_char count_marker String.length].
    rewrite E, IHq. split; lia.
Qed.

Lemma restore_cons c t :
  str_replace (String c t) "?" "%s"
  = if Ascii.eqb "?" c then "%s" +:+ str_replace t "?" "%s"
    else String c (str_replace t "?" "%s").
Proof.
  unfold str_replace. cbn [replace_from is_prefix String.length Nat.sub].
  destruct (Ascii.eqb "?" c); reflexivity.
Qed.

(** X3: on a text without question marks the translation can be undone by
    replacing "?" with "%s", so two such texts with the same translation are
    the same text. *)
Theorem X3_translation_round_trip (sql other : string) :
  count_char "?" sql = 0 ->
  count_char "?" other = 0 ->
  str_replace (CursorWrapper._replace_params sql) "?" "%s" = sql /\
  (CursorWrapper._replace_params sql = CursorWrapper._replace_params other -> sql = other).
Proof.
  assert (Hback : forall s, count_char "?" s = 0 ->
                   str_replace (CursorWrapper._replace_params s) "?" "%s" = s).
  { intros s. induction s as [|rest IH|c rest E IH] using marker_scan_ind; intros Hq.
    - reflexivity.
    - rewrite replace_params_marker, restore_cons. cbn [Ascii.eqb Bool.eqb].
      rewrite IH; [reflexivity|]. exact Hq.
    - rewrite (replace_params_other _ _ E), restore_cons.
      cbn [count_char] in Hq. destruct (Ascii.eqb "?" c); [discriminate|].
      rewrite IH; [reflexivity|]. exact Hq. }
  intros Hs Ho. split; [by apply Hback|].
  intros Heq. rewrite <- (Hback sql Hs), <- (Hback other Ho), Heq. reflexivity.
Qed.

Lemma X3_witness :
  str_replace (CursorWrapper._replace_params "a = %s AND b LIKE '%%s'") "?" "%s"
  = "a = %s AND b LIKE '%%s'".
Proof.
  apply (X3_translation_round_trip "a = %s AND b LIKE '%%s'" "SELECT 1"); reflexivity.
Defined.

Example round_trip_needs_no_question_mark :
  str_replace (CursorWrapper._replace_params "a = ?") "?" "%s" = "a = %s".
Proof. reflexivity. Qed.

(** ** What leaves [execute] and [executemany] *)

Lemma executemany_integrity_class env sql param_list w e :
  driver env (trace w) (EvExecuteMany (CursorWrapper._replace_params sql) param_list) = inl e ->
  is_driver_integrity e = true ->
  (CursorWrapper.executemany env sql param_list w).1
  = Raise (Exc utils_IntegrityError (exc_args e)).
Proof.
  intros Hd Hi. unfold CursorWrapper.executemany. run. rewrite Hd, Hi. reflexivity.
Qed.

Lemma executemany_foreign_exception env sql param_list w e :
  driver env (trace w) (EvExecuteMany (CursorWrapper._replace_params sql) param_list) = inl e ->
  is_driver_error e = false ->
  (CursorWrapper.executemany env sql param_list w).1 = Raise e.
Proof.
  intros Hd He. unfold CursorWrapper.executemany. run. rewrite Hd.
  replace (is_driver_integrity e) with false.
  - rewrite He. reflexivity.
  - unfold is_driver_error, is_driver_integrity in *. by destruct (exc_cls e).
Qed.

(** X4: when the driver raises its own [IntegrityError] class, [execute] and
    [executemany] raise Django's [IntegrityError] with the same arguments, on
    either interpreter line. *)
Theorem X4_integrity_class_mapped (env : Env) (sql : string) (params : pyval) (w : World)
    (e e' : exc) :
  is_driver_integrity e = true ->
  is_driver_integrity e' = true ->
  driver env (trace w) (EvExecute (CursorWrapper._replace_params sql) params) = inl e ->
  driver env (trace w) (EvExecuteMany (CursorWrapper._replace_params sql) params) = inl e' ->
  (CursorWrapper.execute env sql params w).1
    = Raise (Exc utils_IntegrityError (exc_args e)) /\
  (CursorWrapper.executemany env sql params w).1
    = Raise (Exc utils_IntegrityError (exc_args e')).
Proof.
  intros Hi Hi' Hd Hd'. split.
  - by apply execute_integrity_class.
  - by apply executemany_integrity_class.
Qed.

Lemma X4_witness :
  (CursorWrapper.execute (sample_env Py2 (failing_driver integrity_violation))
     "INSERT INTO t VALUES (%s)" (PTuple [PInt 1]) sample_world).1
    = Raise (Exc utils_IntegrityError (exc_args integrity_violation)) /\
  (CursorWrapper.executemany (sample_env Py2 (failing_driver integrity_violation))
     "INSERT INTO t VALUES (%s)" (PTuple [PInt 1]) sample_world).1
    = Raise (Exc utils_IntegrityError (exc_args integrity_violation)).
Proof.
  apply (X4_integrity_class_mapped (sample_env Py2 (failing_driver integrity_violation))
           "INSERT INTO t VALUES (%s)" (PTuple [PInt 1]) sample_world
           integrity_violation integrity_violation); reflexivity.
Defined.

(** X5: an exception that is not of the driver's family ([KeyboardInterrupt],
    a [TypeError] of the driver's argument check, ...) leaves [execute] and
    [executemany] as it is: no handler matches it. *)
Theorem X5_foreign_exception_unchanged (env : Env) (sql : string) (params : pyval)
    (w : World) (e e' : exc) :
  is_driver_error e = false ->
  is_driver_error e' = false ->
  driver env (trace w) (EvExecute (CursorWrapper._replace_params sql) params) = inl e ->
  driver env (trace w) (EvExecuteMany (CursorWrapper._replace_params sql) params) = inl e' ->
  (CursorWrapper.execute env sql params w).1 = Raise e /\
  (CursorWrapper.executemany env sql params w).1 = Raise e'.
Proof.
  intros He He' Hd Hd'. split.
  - by apply execute_foreign_exception.
  - by apply executemany_foreign_exception.
Qed.

Lemma X5_witness :
  (CursorWrapper.execute
     (sample_env Py3 (failing_driver (Exc (OtherException "KeyboardInterrupt") [])))
     "SELECT 1 FROM DUMMY" (PTuple []) sample_world).1
    = Raise (Exc (OtherException "KeyboardInterrupt") []) /\
  (CursorWrapper.executemany
     (sample_env Py3 (failing_driver (Exc (OtherException "KeyboardInterrupt") [])))
     "SELECT 1 FROM DUMMY" (PTuple []) sample_world).1
    = Raise (Exc (OtherException "KeyboardInterrupt") []).
Proof.
  apply (X5_foreign_exception_unchanged
           (sample_env Py3 (failing_driver (Exc (OtherException "KeyboardInterrupt") [])))
           "SELECT 1 FROM DUMMY" (PTuple []) sample_world
           (Exc (OtherException "KeyboardInterrupt") [])
           (Exc (OtherException "KeyboardInterrupt") [])); reflexivity.
Defined.

(** X6: whatever the driver does and on either interpreter line, no exception
    of the driver's family comes out of [execute] or [executemany]: it is
    replaced by Django's, or by the error of the subscript. *)
Theorem X6_no_driver_class_escapes (env : Env) (sql : string) (params : pyval) (w : World)
    (e : exc) :
  (CursorWrapper.execute env sql params w).1 = Raise e \/
  (CursorWrapper.executemany env sql params w).1 = Raise e ->
  is_driver_error e = false.
Proof.
  unfold CursorWrapper.execute, CursorWrapper.executemany. run.
  intros [H|H]; revert H;
    (destruct (driver env (trace w) _) as [e0|v]; [|discriminate]);
    (destruct (is_driver_integrity e0) eqn:Hi; [by intros [= <-]|]);
    (destruct (is_driver_error e0) eqn:Hd; [|by intros [= <-]]);
    (destruct (python env); run; [|by intros [= <-]]);
    (destruct (exc_args e0 !! 0) as [code|]; run; [|by intros [= <-]]);
    destruct (in_codes code CursorWrapper.codes_for_integrityerror); by intros [= <-].
Qed.

Lemma X6_witness :
  is_driver_error (Exc TypeError [PStr "object is not subscriptable"]) = false.
Proof.
  apply (X6_no_driver_class_escapes (sample_env Py3 (failing_driver syntax_error))
           "SELECT * FROM" (PTuple []) sample_world).
  left. reflexivity.
Defined.

(** X7: on Python 2, where [e[0]] reads the first argument, a driver error
    outside the [IntegrityError] class is re-raised with its arguments as
    [IntegrityError] when that argument is 301 and as [DatabaseError] when it
    is another value; an error without arguments ends in [IndexError]. *)
Theorem X7_code_mapping_py2 (env : Env) (sql : string) (params : pyval) (w : World) (e : exc) :
  python env = Py2 ->
  is_driver_error e = true ->
  is_driver_integrity e = false ->
  driver env (trace w) (EvExecute (CursorWrapper._replace_params sql) params) = inl e ->
  (CursorWrapper.execute env sql params w).1
  = match exc_args e with
    | [] => Raise (Exc IndexError [PStr "tuple index out of range"])
    | PInt 301 :: _ => Raise (Exc utils_IntegrityError (exc_args e))
    | _ :: _ => Raise (Exc utils_DatabaseError (exc_args e))
    end.
Proof.
  intros Hpy Hd Hi Hraise. destruct (exc_args e) as [|code rest] eqn:Ha.
  - unfold CursorWrapper.execute. run. rewrite Hraise, Hi, Hd, Hpy, Ha. reflexivity.
  - rewrite (execute_other_class_py2 env sql params w e Hraise code rest Hpy Hd Hi Ha).
    rewrite Ha. unfold in_codes, CursorWrapper.codes_for_integrityerror.
    destruct code as [| [] |z| | | | | | |]; try reflexivity.
    cbn [existsb]. rewrite orb_false_r.
    destruct (Z.eqb_spec z 301) as [->|Hne]; [reflexivity|].
    destruct z as [|p|p]; try reflexivity.
    repeat (destruct p as [p|p|]; try reflexivity). congruence.
Qed.

Lemma X7_witness :
  (CursorWrapper.execute (sample_env Py2 (failing_driver unique_violation))
     "INSERT INTO t VALUES (%s)" (PTuple [PInt 1]) sample_world).1
  = Raise (Exc utils_IntegrityError (exc_args unique_violation)).
Proof.
  apply (X7_code_mapping_py2 (sample_env Py2 (failing_driver unique_violation))
           "INSERT INTO t VALUES (%s)" (PTuple [PInt 1]) sample_world unique_violation);
    reflexivity.
Defined.

(** ** The debug wrapper as a decorator *)





(** ** Sanitizing parameters for the log *)

(** X10: sanitizing is idempotent and never yields a Blob; a list or tuple
    of parameters becomes a list of the same length with no Blob among its
    elements, and a value that is neither a Blob nor a sequence is logged as
    it is. *)
Theorem X10_sanitize_params (params : pyval) :
  CursorDebugWrapper.sanitize_params (CursorDebugWrapper.sanitize_params params)
    = CursorDebugWrapper.sanitize_params params /\
  is_blob (CursorDebugWrapper.sanitize_params params) = false /\
  match sequence_items params with
  | Some items =>
      exists items',
        CursorDebugWrapper.sanitize_params params = PList items' /\
        length items' = length items /\
        forallb (fun v => negb (is_blob v)) items' = true
  | None =>
      is_blob params = true \/ CursorDebugWrapper.sanitize_params params = params
  end.
Proof.
  assert (Hmap : forall l, map CursorDebugWrapper.sanitize_blob
                             (map CursorDebugWrapper.sanitize_blob l)
                           = map CursorDebugWrapper.sanitize_blob l).
  { intros l. rewrite map_map. apply map_ext. by intros []. }
  assert (Hnone : forall l, forallb (fun v => negb (is_blob v))
                              (map CursorDebugWrapper.sanitize_blob l) = true).
  { induction l as [|v l IH]; [reflexivity|]. cbn [map forallb]. rewrite IH.
    by destruct v. }
  destruct params as [| | | | | |l|l|l|]; cbn; rewrite ?Hmap;
    (split; [reflexivity|]); (split; [reflexivity|]); try (by right); try (by left);
    exists (map CursorDebugWrapper.sanitize_blob l);
    (split; [reflexivity|]); (split; [apply length_map|apply Hnone]).
Qed.

Example sanitize_nested_blob_untouched :
  CursorDebugWrapper.sanitize_params (PTuple [PBlob "x"; PList [PBlob "y"]])
  = PList [PBytes "x"; PList [PBlob "y"]].
Proof. reflexivity. Qed.

(** ** Two iterators over one cursor *)

Lemma iter_native w :
  native_iter (cursor w) = true ->
  CursorWrapper.__iter__ w = (Ret CursorWrapper.CursorIter, w).
Proof.
  intros Hn. unfold CursorWrapper.__iter__, CursorWrapper.iter_cursor. run.
  rewrite Hn. reflexivity.
Qed.

Lemma iter_fallback w :
  native_iter (cursor w) = false ->
  CursorWrapper.__iter__ w
  = (Ret (CursorWrapper.ListIter (pending (cursor w))),
     with_cursor {| native_iter := false; pending := [] |}
       (with_trace (trace w ++ [EvFetchall]) w)).
Proof.
  intros Hn. unfold CursorWrapper.__iter__, CursorWrapper.iter_cursor,
    CursorWrapper.cursor_fetchall. run. rewrite Hn. cbn. rewrite Hn. reflexivity.
Qed.

(** X11: two iterators taken from the same wrapper never yield a row twice
    between them.  With native iteration both are the cursor itself and the
    one consumed first gets every row; with the fallback the first [__iter__]
    fetches everything (one [fetchall] per call) and the second iterator is
    empty.  In whichever order the two are consumed, together they yield the
    pending rows once, in order. *)
Theorem X11_iterators_share_rows (w : World) (extra : nat) :
  let rows := pending (cursor w) in
  let fuel := S (length rows + extra) in
  exists (it1 it2 : CursorWrapper.py_iter) (w1 w2 : World),
    CursorWrapper.__iter__ w = (Ret it1, w1) /\
    CursorWrapper.__iter__ w1 = (Ret it2, w2) /\
    trace w2 = (trace w ++ (if native_iter (cursor w) then [] else [EvFetchall; EvFetchall]))%list /\
    (exists it1' it2' w3 w4,
        CursorWrapper.consume fuel it1 w2 = Some (rows, it1', w3) /\
        CursorWrapper.consume fuel it2 w3 = Some ([], it2', w4)) /\
    (exists r2 r1 it2' it1' w3 w4,
        CursorWrapper.consume fuel it2 w2 = Some (r2, it2', w3) /\
        CursorWrapper.consume fuel it1 w3 = Some (r1, it1', w4) /\
        (r2 ++ r1)%list = rows /\ (r2 = [] \/ r1 = [])).
Proof.
  cbn zeta. destruct (native_iter (cursor w)) eqn:Hn.
  - exists CursorWrapper.CursorIter, CursorWrapper.CursorIter, w, w.
    rewrite (iter_native w Hn), app_nil_r.
    destruct (consume_cursor (pending (cursor w)) extra w eq_refl)
      as (w3 & Hrun & Hnone & _ & _).
    destruct (consume_cursor [] (length (pending (cursor w)) + extra) w3 Hnone)
      as (w4 & Hrun' & _).
    repeat split; try reflexivity.
    + exists CursorWrapper.CursorIter, CursorWrapper.CursorIter, w3, w4. by split.
    + exists (pending (cursor w)), [], CursorWrapper.CursorIter, CursorWrapper.CursorIter, w3, w4.
      rewrite app_nil_r. repeat split; [exact Hrun|exact Hrun'|by right].
  - rewrite (iter_fallback w Hn).
    eexists _, _, _, _. split; [reflexivity|]. split; [by rewrite iter_fallback|].
    split; [cbn; by rewrite <- app_assoc|]. cbn [pending cursor with_cursor]. split.
    + eexists _, _, _, _. split; [apply consume_list|].
      apply (consume_list [] (length (pending (cursor w)) + extra)).
    + eexists [], (pending (cursor w)), _, _, _, _.
      split; [apply (consume_list [] (length (pending (cursor w)) + extra))|].
      split; [apply consume_list|]. split; [reflexivity|by left].
Qed.

(** ** Opening a connection *)

(** X12: with a schema name configured, [get_connection_params] returns a
    dict that holds, under "user", "password", "host" and "port", exactly the
    settings that are set, and no other key (the schema name is not part of
    it); it changes nothing. *)
Theorem X12_connection_params (w : World) :
  truthy (NAME (settings_dict (db w))) = true ->
  exists conn_params : gmap string pyval,
    DatabaseWrapper.get_connection_params w = (Ret conn_params, w) /\
    forall key : string,
      conn_params !! key
      = let s := settings_dict (db w) in
        let entry v := if truthy v then Some v else None in
        if decide (key = "user") then entry (USER s)
        else if decide (key = "password") then entry (PASSWORD s)
        else if decide (key = "host") then entry (HOST s)
        else if decide (key = "port") then entry (PORT s)
        else None.
Proof.
  intros Hname. unfold DatabaseWrapper.get_connection_params. run.
  rewrite Hname. cbn [negb]. eexists. split; [reflexivity|]. intros key. cbn zeta.
  destruct (truthy (USER _)), (truthy (PASSWORD _)), (truthy (HOST _)), (truthy (PORT _));
    repeat case_decide; by simplify_map_eq.
Qed.

Lemma X12_witness :
  exists conn_params : gmap string pyval,
    DatabaseWrapper.get_connection_params (unconnected settings_without_host)
      = (Ret conn_params, unconnected settings_without_host) /\
    conn_params !! "host" = None /\ conn_params !! "port" = Some (PInt 30015) /\
    conn_params !! "NAME" = None.
Proof.
  destruct (X12_connection_params (unconnected settings_without_host) eq_refl)
    as (p & Hrun & Hkeys).
  exists p. split; [exact Hrun|]. rewrite !Hkeys. repeat split.
Defined.

Section Connect.
Context (env : Env) (w : World) (name : string) (port : Z).
Let s := settings_dict (db w).
Hypothesis name_set : NAME s = PStr name /\ name <> "".
Hypothesis others_set :
  truthy (USER s) = true /\ truthy (PASSWORD s) = true /\
  truthy (HOST s) = true /\ truthy (PORT s) = true.
Hypothesis port_number : py_int env (PORT s) w = (Ret port, w).

Let connecting := EvConnect (HOST s) port (USER s) (PASSWORD s).
Let setting_schema := EvExecute ("set schema " +:+ str_upper name) PNone.

Lemma get_new_connection_lookups :
  exists conn_params : gmap string pyval,
    DatabaseWrapper.get_connection_params w = (Ret conn_params, w) /\
    conn_params !! "host" = Some (HOST s) /\ conn_params !! "port" = Some (PORT s) /\
    conn_params !! "user" = Some (USER s) /\ conn_params !! "password" = Some (PASSWORD s).
Proof.
  destruct name_set as [Hname Hne], others_set as (Hu & Hp & Hh & Hpo).
  assert (Ht : truthy (NAME (settings_dict (db w))) = true).
  { fold s. rewrite Hname. cbn. destruct name; [done|reflexivity]. }
  destruct (get_connection_params_named w Ht) as (p & Hrun & H1 & H2 & H3 & H4).
  cbn zeta in *. fold s in H1, H2, H3, H4. rewrite Hh in H1. rewrite Hpo in H2.
  rewrite Hu in H3. rewrite Hp in H4. eauto 10.
Qed.

Lemma new_connection_success conn_params :
  DatabaseWrapper.get_connection_params w = (Ret conn_params, w) ->
  (forall tr, exists v, driver env tr connecting = inr v) ->
  (forall tr, exists v, driver env tr setting_schema = inr v) ->
  DatabaseWrapper.get_new_connection env conn_params w
  = (Ret {| closed := false; conn_autocommit := false |},
     with_db (with_default_schema (str_upper name) (db w))
       (with_trace (trace w ++ [connecting; EvConnCursor; setting_schema]) w)).
Proof.
  intros Hrun Hc Hs.
  destruct get_new_connection_lookups as (p & Hp & Hh & Hpo & Hu & Hpw).
  rewrite Hrun in Hp. injection Hp as <-.
  destruct name_set as [Hname _].
  unfold DatabaseWrapper.get_new_connection, DatabaseWrapper.set_default_schema,
    DatabaseWrapper.upper.
  run. rewrite Hh, Hpo. fold s. rewrite port_number, Hu, Hpw.
  destruct (Hc (trace w)) as [v1 Hv1]. fold connecting. rewrite Hv1. cbn.
  fold s. rewrite Hname. cbn. fold setting_schema.
  destruct (Hs (trace w ++ [connecting; EvConnCursor])%list) as [v2 Hv2].
  rewrite <- ?app_assoc. cbn [app]. rewrite Hv2. cbn.
  rewrite <- ?app_assoc. reflexivity.
Qed.

Lemma new_connection_refused conn_params e :
  DatabaseWrapper.get_connection_params w = (Ret conn_params, w) ->
  driver env (trace w) connecting = inl e ->
  DatabaseWrapper.get_new_connection env conn_params w
  = (Raise e, with_trace (trace w ++ [connecting]) w).
Proof.
  intros Hrun Hc.
  destruct get_new_connection_lookups as (p & Hp & Hh & Hpo & Hu & Hpw).
  rewrite Hrun in Hp. injection Hp as <-.
  unfold DatabaseWrapper.get_new_connection. run.
  rewrite Hh, Hpo. fold s. rewrite port_number, Hu, Hpw.
  fold connecting. rewrite Hc. reflexivity.
Qed.

Lemma new_connection_schema_refused conn_params v e :
  DatabaseWrapper.get_connection_params w = (Ret conn_params, w) ->
  driver env (trace w) connecting = inr v ->
  driver env (trace w ++ [connecting; EvConnCursor]) setting_schema = inl e ->
  DatabaseWrapper.get_new_connection env conn_params w
  = (Raise e,
     with_db (with_default_schema (str_upper name) (db w))
       (with_trace (trace w ++ [connecting; EvConnCursor; setting_schema]) w)).
Proof.
  intros Hrun Hc Hs.
  destruct get_new_connection_lookups as (p & Hp & Hh & Hpo & Hu & Hpw).
  rewrite Hrun in Hp. injection Hp as <-.
  destruct name_set as [Hname _].
  unfold DatabaseWrapper.get_new_connection, DatabaseWrapper.set_default_schema,
    DatabaseWrapper.upper.
  run. rewrite Hh, Hpo. fold s. rewrite port_number, Hu, Hpw.
  fold connecting. rewrite Hc. cbn. fold s. rewrite Hname. cbn. fold setting_schema.
  rewrite <- ?app_assoc. cbn [app]. rewrite Hs. cbn.
  rewrite <- ?app_assoc. reflexivity.
Qed.

End Connect.

Lemma count_close_app tr tr' :
  count_close (tr ++ tr') = count_close tr + count_close tr'.
Proof.
  induction tr as [|ev tr IH]; [reflexivity|].
  destruct ev; cbn [app count_close]; rewrite IH; reflexivity.
Qed.

(** X13: with every parameter configured, a port that [int()] accepts and a
    driver that accepts the calls, [get_new_connection] on the dict of
    [get_connection_params] makes three driver calls in this order: connect
    with host, port, user and password; open a cursor; execute "set schema"
    followed by the upper-cased schema name, without parameters.  It records
    that upper-cased name as the default schema and returns the open
    connection. *)
Theorem X13_new_connection_sequence (env : Env) (w : World) (name : string) (port : Z)
    (conn_params : gmap string pyval) :
  let s := settings_dict (db w) in
  NAME s = PStr name /\ name <> "" ->
  truthy (USER s) = true /\ truthy (PASSWORD s) = true /\
  truthy (HOST s) = true /\ truthy (PORT s) = true ->
  py_int env (PORT s) w = (Ret port, w) ->
  DatabaseWrapper.get_connection_params w = (Ret conn_params, w) ->
  (forall tr ev, exists v, driver env tr ev = inr v) ->
  let w' := (DatabaseWrapper.get_new_connection env conn_params w).2 in
  (exists conn, (DatabaseWrapper.get_new_connection env conn_params w).1 = Ret conn /\
                closed conn = false) /\
  trace w' = (trace w ++ [EvConnect (HOST s) port (USER s) (PASSWORD s); EvConnCursor;
                          EvExecute ("set schema " +:+ str_upper name) PNone])%list /\
  default_schema (db w') = str_upper name /\
  with_default_schema "" (db w') = with_default_schema "" (db w).
Proof.
  intros s Hname Hothers Hport Hrun Hdrv. cbn zeta.
  rewrite (new_connection_success env w name port Hname Hothers Hport conn_params Hrun
             (fun tr => Hdrv tr _) (fun tr => Hdrv tr _)).
  split; [eexists; split; reflexivity|]. repeat split.
Qed.

Lemma X13_witness :
  exists conn_params : gmap string pyval,
    DatabaseWrapper.get_connection_params (unconnected sample_settings)
      = (Ret conn_params, unconnected sample_settings) /\
    trace (DatabaseWrapper.get_new_connection (sample_env Py3 obliging_driver) conn_params
             (unconnected sample_settings)).2
      = [EvConnect (PStr "hana.local") 30015 (PStr "SYSTEM") (PStr "secret"); EvConnCursor;
         EvExecute "set schema SHOP" PNone].
Proof.
  assert (Hname : NAME sample_settings = PStr "shop" /\ "shop" <> "") by (split; done).
  assert (Hdrv : forall tr ev, exists v,
               driver (sample_env Py3 obliging_driver) tr ev = inr v).
  { intros tr ev. destruct ev; eexists; reflexivity. }
  destruct (get_connection_params_named (unconnected sample_settings) eq_refl)
    as (p & Hrun & _).
  exists p. split; [exact Hrun|].
  destruct (X13_new_connection_sequence (sample_env Py3 obliging_driver)
              (unconnected sample_settings) "shop" 30015 p Hname
              (conj eq_refl (conj eq_refl (conj eq_refl eq_refl))) eq_refl Hrun Hdrv)
    as (_ & Htrace & _).
  exact Htrace.
Defined.

(** X14: when the driver's [connect] raises, [get_new_connection] raises
    that same exception, not re-classified; one driver call has been made and
    no attribute of the wrapper has changed. *)
Theorem X14_connect_refused (env : Env) (w : World) (name : string) (port : Z)
    (conn_params : gmap string pyval) (e : exc) :
  let s := settings_dict (db w) in
  NAME s = PStr name /\ name <> "" ->
  truthy (USER s) = true /\ truthy (PASSWORD s) = true /\
  truthy (HOST s) = true /\ truthy (PORT s) = true ->
  py_int env (PORT s) w = (Ret port, w) ->
  DatabaseWrapper.get_connection_params w = (Ret conn_params, w) ->
  driver env (trace w) (EvConnect (HOST s) port (USER s) (PASSWORD s)) = inl e ->
  DatabaseWrapper.get_new_connection env conn_params w
  = (Raise e,
     with_trace (trace w ++ [EvConnect (HOST s) port (USER s) (PASSWORD s)]) w).
Proof.
  intros s Hname Hothers Hport Hrun Hdrv.
  exact (new_connection_refused env w name port Hname Hothers Hport conn_params e Hrun Hdrv).
Qed.

Lemma X14_witness :
  exists conn_params : gmap string pyval,
    DatabaseWrapper.get_connection_params (unconnected sample_settings)
      = (Ret conn_params, unconnected sample_settings) /\
    (DatabaseWrapper.get_new_connection
       (sample_env Py3 (driver_failing_on is_connect connection_lost)) conn_params
       (unconnected sample_settings)).1 = Raise connection_lost.
Proof.
  assert (Hname : NAME sample_settings = PStr "shop" /\ "shop" <> "") by (split; done).
  destruct (get_connection_params_named (unconnected sample_settings) eq_refl)
    as (p & Hrun & _).
  exists p. split; [exact Hrun|].
  rewrite (X14_connect_refused (sample_env Py3 (driver_failing_on is_connect connection_lost))
             (unconnected sample_settings) "shop" 30015 p connection_lost Hname
             (conj eq_refl (conj eq_refl (conj eq_refl eq_refl))) eq_refl Hrun eq_refl).
  reflexivity.
Defined.

(** X15: when the session opens but "set schema" is refused,
    [get_new_connection] raises the driver's exception as it is (the
    statement goes through a raw driver cursor, not through the wrapper); the
    schema name is already recorded, the caller gets no connection object, and
    the session that was opened is not closed. *)
Theorem X15_schema_refused (env : Env) (w : World) (name : string) (port : Z)
    (conn_params : gmap string pyval) (v : pyval) (e : exc) :
  let s := settings_dict (db w) in
  let connecting := EvConnect (HOST s) port (USER s) (PASSWORD s) in
  let setting_schema := EvExecute ("set schema " +:+ str_upper name) PNone in
  NAME s = PStr name /\ name <> "" ->
  truthy (USER s) = true /\ truthy (PASSWORD s) = true /\
  truthy (HOST s) = true /\ truthy (PORT s) = true ->
  py_int env (PORT s) w = (Ret port, w) ->
  DatabaseWrapper.get_connection_params w = (Ret conn_params, w) ->
  driver env (trace w) connecting = inr v ->
  driver env (trace w ++ [connecting; EvConnCursor]) setting_schema = inl e ->
  let w' := (DatabaseWrapper.get_new_connection env conn_params w).2 in
  (DatabaseWrapper.get_new_connection env conn_params w).1 = Raise e /\
  trace w' = (trace w ++ [connecting; EvConnCursor; setting_schema])%list /\
  connection (db w') = connection (db w) /\
  count_close (trace w') = count_close (trace w) /\
  default_schema (db w') = str_upper name.
Proof.
  intros s connecting setting_schema Hname Hothers Hport Hrun Hc Hs. cbn zeta.
  rewrite (new_connection_schema_refused env w name port Hname Hothers Hport
             conn_params v e Hrun Hc Hs).
  repeat split.
  cbn [snd trace with_db with_trace]. rewrite count_close_app. cbn. lia.
Qed.

Lemma X15_witness :
  exists conn_params : gmap string pyval,
    DatabaseWrapper.get_connection_params (unconnected sample_settings)
      = (Ret conn_params, unconnected sample_settings) /\
    (DatabaseWrapper.get_new_connection
       (sample_env Py3 (driver_failing_on is_set_schema syntax_error)) conn_params
       (unconnected sample_settings)).1 = Raise syntax_error.
Proof.
  assert (Hname : NAME sample_settings = PStr "shop" /\ "shop" <> "") by (split; done).
  destruct (get_connection_params_named (unconnected sample_settings) eq_refl)
    as (p & Hrun & _).
  exists p. split; [exact Hrun|].
  destruct (X15_schema_refused (sample_env Py3 (driver_failing_on is_set_schema syntax_error))
              (unconnected sample_settings) "shop" 30015 p PNone syntax_error Hname
              (conj eq_refl (conj eq_refl (conj eq_refl eq_refl))) eq_refl Hrun eq_refl eq_refl)
    as (Hr & _).
  exact Hr.
Defined.

(** ** Transaction blocks *)









(** X20: on a wrapper that holds no connection, [leave_transaction_management]
    always ends in the [AttributeError] of [self.connection.setautocommit]: it
    replaces the [TransactionManagementError] of the block, no driver call is
    made (no rollback either) and the dirty flag stays as it was. *)
Theorem X20_leave_without_connection (env : Env) (w : World) :
  connection (db w) = None ->
  let w' := (DatabaseWrapper.leave_transaction_management env w).2 in
  (DatabaseWrapper.leave_transaction_management env w).1
    = Raise (Exc AttributeError [PStr "'NoneType' object has no attribute 'setautocommit'"]) /\
  trace w' = trace w /\ _dirty (db w') = _dirty (db w).
Proof.
  intros Hc. cbn zeta.
  unfold DatabaseWrapper.leave_transaction_management, DatabaseWrapper.rollback,
    connection_setautocommit. run.
  destruct (transaction_state (db w)) as [|m ts]; cbn; rewrite ?Hc; cbn; [done|].
  destruct (_dirty (db w)) eqn:Hd; cbn; rewrite ?Hc; cbn; rewrite ?Hc; cbn; done.
Qed.

Lemma X20_witness :
  (DatabaseWrapper.leave_transaction_management (sample_env Py3 obliging_driver)
     (with_db (with_connection None (with_dirty true sample_db)) sample_world)).1
  = Raise (Exc AttributeError [PStr "'NoneType' object has no attribute 'setautocommit'"]).
Proof.
  apply (X20_leave_without_connection (sample_env Py3 obliging_driver)
           (with_db (with_connection None (with_dirty true sample_db)) sample_world)).
  reflexivity.
Defined.



(** ** Closing and committing *)

(** X22: when the driver's [close] raises, [close] raises the same exception
    and the wrapper keeps holding the connection, so a later [close] calls
    the driver again. *)
Theorem X22_close_failure_keeps_connection (env : Env) (w : World) (c : DriverConn) (e : exc) :
  connection (db w) = Some c ->
  driver env (trace w) EvClose = inl e ->
  DatabaseWrapper.close env w = (Raise e, with_trace (trace w ++ [EvClose]) w) /\
  count_close (trace (DatabaseWrapper.close env (DatabaseWrapper.close env w).2).2)
    = 2 + count_close (trace w).
Proof.
  intros Hc Hfail.
  assert (Hrun : DatabaseWrapper.close env w = (Raise e, with_trace (trace w ++ [EvClose]) w)).
  { unfold DatabaseWrapper.close, DatabaseWrapper.validate_thread_sharing, connection_close.
    run. rewrite Hc. cbn. rewrite Hc. cbn. rewrite Hfail. reflexivity. }
  rewrite Hrun. split; [reflexivity|]. cbn [snd].
  unfold DatabaseWrapper.close, DatabaseWrapper.validate_thread_sharing, connection_close.
  run. cbn. rewrite Hc. cbn. rewrite Hc. cbn.
  destruct (driver env (trace w ++ [EvClose]) EvClose); cbn;
    rewrite !count_close_app; cbn; lia.
Qed.

Lemma X22_witness :
  DatabaseWrapper.close (sample_env Py3 (driver_failing_on is_close connection_lost)) sample_world
  = (Raise connection_lost, with_trace [EvClose] sample_world).
Proof.
  apply (X22_close_failure_keeps_connection
           (sample_env Py3 (driver_failing_on is_close connection_lost)) sample_world
           open_conn connection_lost eq_refl eq_refl).
Defined.

(** X23: on a connected wrapper [_commit] makes one driver call and hands
    the driver's return value, or its exception, to the caller as it is; after
    a successful [close] it makes no driver call and returns [None]. *)
Theorem X23_commit (env : Env) (w : World) (c : DriverConn) (v : pyval) :
  connection (db w) = Some c ->
  driver env (trace w) EvClose = inr v ->
  DatabaseWrapper._commit env w
    = (match driver env (trace w) EvCommit with
       | inl e => Raise e
       | inr result => Ret result
       end, with_trace (trace w ++ [EvCommit]) w) /\
  DatabaseWrapper._commit env (DatabaseWrapper.close env w).2
    = (Ret PNone, (DatabaseWrapper.close env w).2).
Proof.
  intros Hc Hok. split.
  - unfold DatabaseWrapper._commit. run. rewrite Hc.
    destruct (driver env (trace w) EvCommit); reflexivity.
  - unfold DatabaseWrapper.close, DatabaseWrapper.validate_thread_sharing, connection_close,
      DatabaseWrapper._commit. run. rewrite Hc. cbn. rewrite Hc. cbn. rewrite Hok. reflexivity.
Qed.

Lemma X23_witness :
  DatabaseWrapper._commit (sample_env Py3 obliging_driver)
    (DatabaseWrapper.close (sample_env Py3 obliging_driver) sample_world).2
  = (Ret PNone, (DatabaseWrapper.close (sample_env Py3 obliging_driver) sample_world).2).
Proof.
  apply (X23_commit (sample_env Py3 obliging_driver) sample_world open_conn PNone
           eq_refl eq_refl).
Defined.
